(** * Client-side synchronisation layer of the book/quote tracker

    A shallow embedding of the two revisions of the React component [App]:
    - [Unnamed000] embeds [src/unnamed/part_000] (the revision with the
      [booksWithQuotes] and [loading] state and the [loadAll] barrier);
    - [FrontendApp] embeds [src/frontend/src/App.js].

    The component is single-threaded and event-driven.  Every [async]
    function of the source awaits exactly one network promise, so each one is
    split at its [await]: the part that runs when the function is called
    (named as in the source) and the part that runs when the promise settles
    (suffix [_resume]).  The requests in flight are kept in the world together
    with the continuation that waits for them; [deliver] settles one of them.

    Text is kept in UTF-8: a [string] is the sequence of bytes that encodes
    the JavaScript string, which is how [encodeURIComponent] and the request
    bodies put it on the wire. *)

From Stdlib Require Import String Ascii List Bool ZArith Lia.
From Stdlib Require Import QArith Qround Lqa.
From stdpp Require Import base option list gmap strings.

Close Scope Q_scope.

Local Open Scope string_scope.
Local Open Scope list_scope.

(** ** The platform: what the browser and the libraries provide *)

(** What a variable that is read as a title can hold: [null], a string, or
    any other value the server has sent.  [selectedBook] starts as [null] and
    then holds an element of [booksWithQuotes], as it came. *)
Inductive element (J : Type) :=
  | Null
  | Str (s : string)
  | Other (j : J).
Global Arguments Null {J}.
Global Arguments Str {J} s.
Global Arguments Other {J} j.

(** Built-ins the component calls but does not define.  [JSON_parse] returns
    [None] where [JSON.parse] throws a [SyntaxError]; [entries a] lists the
    elements that [a.map] visits when [a] is an array. *)
Class Platform := {
  json : Type;
  number : Type;
  json_empty_array : json;
  number_5 : number;
  JSON_stringify : json → string;
  JSON_parse : string → option json;
  entries : json → list (element json);
  encodeURIComponent : string → string;
  BACKEND_URL : string;
}.

(** Values thrown or used as rejection reasons. *)
Inductive exn :=
  | NetworkError (msg : string)
  | SyntaxError
  | ReferenceError (ident : string).

Inductive toast :=
  | toast_error (msg : string)
  | toast_success (msg : string).

Inductive collection := Books | Quotes | BooksWithQuotes.

Inductive mutation :=
  | AddBook | UpdateBook | DeleteBook
  | AddQuote | UpdateQuoteDiscussion | DeleteQuote.

(** Who is suspended on a request in flight: a per-collection fetch function,
    a mutation function, or one of the three slots of [loadAll]'s
    [Promise.all]. *)
Inductive waiter :=
  | AwaitFetch (c : collection)
  | AwaitMutation (m : mutation)
  | AwaitLoadAll (c : collection).

Global Instance collection_eq_dec : EqDecision collection.
Proof. solve_decision. Defined.
Global Instance mutation_eq_dec : EqDecision mutation.
Proof. solve_decision. Defined.
Global Instance waiter_eq_dec : EqDecision waiter.
Proof. solve_decision. Defined.

(** *** [String.prototype.trim]

    [s.trim()] removes the leading and the trailing code points of the
    productions WhiteSpace and LineTerminator: U+0009 to U+000D, U+0020,
    U+00A0, U+1680, U+2000 to U+200A, U+2028, U+2029, U+202F, U+205F, U+3000
    and U+FEFF.  In UTF-8 the first six are one byte, U+00A0 is [C2 A0] and
    the others are three bytes. *)

Definition one_byte_space (a : ascii) : bool :=
  let n := nat_of_ascii a in
  ((9 <=? n) && (n <=? 13))%nat || (n =? 32)%nat.

Definition two_byte_space (a b : ascii) : bool :=
  ((nat_of_ascii a =? 194) && (nat_of_ascii b =? 160))%nat.

Definition three_byte_space (a b c : ascii) : bool :=
  let x := nat_of_ascii a in
  let y := nat_of_ascii b in
  let z := nat_of_ascii c in
  ((x =? 225) && (y =? 154) && (z =? 128)                       (* U+1680 *)
   || (x =? 226) && (y =? 128)
      && ((128 <=? z) && (z <=? 138)                   (* U+2000 .. U+200A *)
          || (z =? 168) || (z =? 169)                    (* U+2028, U+2029 *)
          || (z =? 175))                                         (* U+202F *)
   || (x =? 226) && (y =? 129) && (z =? 159)                     (* U+205F *)
   || (x =? 227) && (y =? 128) && (z =? 128)                     (* U+3000 *)
   || (x =? 239) && (y =? 187) && (z =? 191))%nat.               (* U+FEFF *)

Fixpoint trimStart (s : string) : string :=
  match s with
  | String a s1 =>
      if one_byte_space a then trimStart s1
      else
        match s1 with
        | String b s2 =>
            if two_byte_space a b then trimStart s2
            else
              match s2 with
              | String c s3 =>
                  if three_byte_space a b c then trimStart s3 else s
              | EmptyString => s
              end
        | EmptyString => s
        end
  | EmptyString => s
  end.

(** The text is made of white space only (the empty text included). *)
Fixpoint whitespace_only (s : string) : bool :=
  match s with
  | String a s1 =>
      if one_byte_space a then whitespace_only s1
      else
        match s1 with
        | String b s2 =>
            if two_byte_space a b then whitespace_only s2
            else
              match s2 with
              | String c s3 => three_byte_space a b c && whitespace_only s3
              | EmptyString => false
              end
        | EmptyString => false
        end
  | EmptyString => true
  end.

(** The trailing white space is the longest suffix made of white space. *)
Fixpoint trimEnd (s : string) : string :=
  match s with
  | String a s1 => if whitespace_only s then EmptyString
                   else String a (trimEnd s1)
  | EmptyString => EmptyString
  end.

Definition trim (s : string) : string := trimEnd (trimStart s).

(** Truthiness of a string: [!s] is [true] exactly for the empty string.  The
    result of [localStorage.getItem] is [null] (falsy) or a string. *)
Definition falsy (s : string) : bool :=
  match s with EmptyString => true | String _ _ => false end.

Section Runtime.
Context `{Platform}.

Definition API : string := BACKEND_URL +:+ "/api".

(** *** Forms and request bodies *)

Record BookForm := mkBookForm {
  bf_title : string; bf_status : string; bf_rating : number }.

Record EditBookForm := mkEditBookForm {
  eb_title : string; eb_status : string; eb_rating : number;
  eb_originalTitle : string }.

(** The object literal passed to [updateBook]: any subset of the fields. *)
Record BookUpdates := mkBookUpdates {
  up_title : option string; up_status : option string;
  up_rating : option number }.

Inductive body :=
  | BookBody (f : BookForm)
  | UpdatesBody (u : BookUpdates)
  | QuoteBody (book_title : element json) (text : string)
              (user_id : nat) (discussion : string)
  | DiscussionBody (discussion : string).

Inductive method := GET | POST | PUT | DELETE.

Record request := mkRequest {
  req_method : method; req_url : string; req_body : option body }.

(** How a promise returned by axios settles. *)
Inductive response :=
  | Fulfilled (data : json)
  | Rejected (e : exn).

(** The slots of [Promise.all([booksPromise, quotesPromise, bwqPromise])]. *)
Record slots := mkSlots {
  slot_books : option json; slot_quotes : option json;
  slot_bwq : option json }.

Definition fill (c : collection) (d : json) (s : slots) : slots :=
  match c with
  | Books => mkSlots (Some d) (slot_quotes s) (slot_bwq s)
  | Quotes => mkSlots (slot_books s) (Some d) (slot_bwq s)
  | BooksWithQuotes => mkSlots (slot_books s) (slot_quotes s) (Some d)
  end.

Definition all_fulfilled (s : slots) : option (json * json * json) :=
  match slot_books s, slot_quotes s, slot_bwq s with
  | Some b, Some q, Some w => Some (b, q, w)
  | _, _, _ => None
  end.

(** *** The world

    [ui] is the React state of the component, [renders] every state a
    setter has produced so far (what the UI may have shown), [sent] the
    requests issued so far, [inflight] the continuations waiting for a
    response, [cancelled] the flag of the mount effect, [promise_all] the
    pending [Promise.all] of [loadAll] ([None] once it has settled), and
    [unhandled] the rejections of promises nobody awaits. *)
Record World (S : Type) := mkWorld {
  ui : S;
  renders : list S;
  localStorage : gmap string string;
  toasts : list toast;
  console : list exn;
  sent : list request;
  inflight : list waiter;
  cancelled : bool;
  promise_all : option slots;
  unhandled : list exn;
}.
Global Arguments mkWorld {S}.
Global Arguments ui {S}.
Global Arguments renders {S}.
Global Arguments localStorage {S}.
Global Arguments toasts {S}.
Global Arguments console {S}.
Global Arguments sent {S}.
Global Arguments inflight {S}.
Global Arguments cancelled {S}.
Global Arguments promise_all {S}.
Global Arguments unhandled {S}.

(** *** A state and exception monad for the bodies of the functions *)

Inductive completion (A : Type) :=
  | Normal (a : A)
  | Abrupt (e : exn).
Global Arguments Normal {A}.
Global Arguments Abrupt {A}.

Definition Js (S A : Type) : Type := World S → completion A * World S.

Global Instance Js_ret S : MRet (Js S) := λ A a w, (Normal a, w).

Global Instance Js_bind S : MBind (Js S) := λ A B f m w,
  match m w with
  | (Normal a, w') => f a w'
  | (Abrupt e, w') => (Abrupt e, w')
  end.

Definition throw {S A} (e : exn) : Js S A := λ w, (Abrupt e, w).

(** [try { body } catch (e) { handler }] *)
Definition try_catch {S A} (body : Js S A) (handler : exn → Js S A) : Js S A :=
  λ w, match body w with
       | (Normal a, w') => (Normal a, w')
       | (Abrupt e, w') => handler e w'
       end.

(** [try { body } finally { final }]: [final] runs on both exits and an
    abrupt completion of [final] replaces the one of [body]. *)
Definition try_finally {S A} (body : Js S A) (final : Js S unit) : Js S A :=
  λ w, match body w with
       | (r, w') =>
           match final w' with
           | (Normal _, w'') => (r, w'')
           | (Abrupt e, w'') => (Abrupt e, w'')
           end
       end.

(** [await p] for a promise that settles as [r]. *)
Definition await {S} (r : response) : Js S json :=
  match r with
  | Fulfilled d => mret d
  | Rejected e => throw e
  end.

Definition get_ui {S} : Js S S := λ w, (Normal (ui w), w).

(** A [useState] setter: the new state replaces the old one and is shown. *)
Definition set_ui {S} (f : S → S) : Js S unit := λ w,
  (Normal tt,
   mkWorld (f (ui w)) (renders w ++ [f (ui w)]) (localStorage w) (toasts w)
           (console w) (sent w) (inflight w) (cancelled w) (promise_all w)
           (unhandled w)).

Definition toast_emit {S} (t : toast) : Js S unit := λ w,
  (Normal tt,
   mkWorld (ui w) (renders w) (localStorage w) (toasts w ++ [t])
           (console w) (sent w) (inflight w) (cancelled w) (promise_all w)
           (unhandled w)).

Definition console_error {S} (e : exn) : Js S unit := λ w,
  (Normal tt,
   mkWorld (ui w) (renders w) (localStorage w) (toasts w)
           (console w ++ [e]) (sent w) (inflight w) (cancelled w)
           (promise_all w) (unhandled w)).

Definition localStorage_getItem {S} (key : string) : Js S (option string) :=
  λ w, (Normal (localStorage w !! key), w).

Definition localStorage_setItem {S} (key value : string) : Js S unit := λ w,
  (Normal tt,
   mkWorld (ui w) (renders w) (<[key:=value]> (localStorage w)) (toasts w)
           (console w) (sent w) (inflight w) (cancelled w) (promise_all w)
           (unhandled w)).

(** [JSON.parse(s)] as a computation: a [SyntaxError] on malformed text. *)
Definition JSON_parse_js {S} (s : string) : Js S json :=
  match JSON_parse s with
  | Some v => mret v
  | None => throw SyntaxError
  end.

(** Issuing a request with axios: it is sent, and [k] waits for it. *)
Definition axios {S} (rq : request) (k : waiter) : Js S unit := λ w,
  (Normal tt,
   mkWorld (ui w) (renders w) (localStorage w) (toasts w) (console w)
           (sent w ++ [rq]) (inflight w ++ [k]) (cancelled w)
           (promise_all w) (unhandled w)).

Definition axios_get {S} (url : string) (k : waiter) : Js S unit :=
  axios (mkRequest GET url None) k.
Definition axios_post {S} (url : string) (b : body) (k : waiter) : Js S unit :=
  axios (mkRequest POST url (Some b)) k.
Definition axios_put {S} (url : string) (b : body) (k : waiter) : Js S unit :=
  axios (mkRequest PUT url (Some b)) k.
Definition axios_delete {S} (url : string) (k : waiter) : Js S unit :=
  axios (mkRequest DELETE url None) k.

Definition get_cancelled {S} : Js S bool := λ w, (Normal (cancelled w), w).

Definition set_cancelled {S} (b : bool) : Js S unit := λ w,
  (Normal tt,
   mkWorld (ui w) (renders w) (localStorage w) (toasts w) (console w)
           (sent w) (inflight w) b (promise_all w) (unhandled w)).

Definition set_promise_all {S} (p : option slots) : Js S unit := λ w,
  (Normal tt,
   mkWorld (ui w) (renders w) (localStorage w) (toasts w) (console w)
           (sent w) (inflight w) (cancelled w) p (unhandled w)).

Definition set_inflight {S} (l : list waiter) (w : World S) : World S :=
  mkWorld (ui w) (renders w) (localStorage w) (toasts w) (console w)
          (sent w) l (cancelled w) (promise_all w) (unhandled w).

(** Running the body of an [async] function whose promise nobody awaits:
    an abrupt completion becomes an unhandled rejection. *)
Definition run {S} (m : Js S unit) (w : World S) : World S :=
  match m w with
  | (Normal _, w') => w'
  | (Abrupt e, w') =>
      mkWorld (ui w') (renders w') (localStorage w') (toasts w') (console w')
              (sent w') (inflight w') (cancelled w') (promise_all w')
              (unhandled w' ++ [e])
  end.

(** The [i]-th request in flight leaves the list when it settles. *)
Definition take_waiter {S} (i : nat) (w : World S) : option (waiter * World S) :=
  match inflight w !! i with
  | Some k => Some (k, set_inflight (delete i (inflight w)) w)
  | None => None
  end.

End Runtime.


(** ** The revision of [src/unnamed/part_000] *)

Module Unnamed000.
Section Component.
Context `{Platform}.

Record QuoteForm := mkQuoteForm {
  qf_text : string; qf_discussion : string; qf_user_id : nat }.

(** The [useState] cells of [App], under the names of the source. *)
Record State := mkState {
  books : json;
  quotes : json;
  booksWithQuotes : json;
  loading : bool;
  selectedBook : element json;
  showAddBook : bool;
  showAddQuote : bool;
  showEditBook : bool;
  bookForm : BookForm;
  editBookForm : EditBookForm;
  quoteForm : QuoteForm;
  editingBook : option string;
}.

(** The initial values given to [useState]. *)
Definition initial_state : State :=
  mkState json_empty_array json_empty_array json_empty_array true Null
          false false false
          (mkBookForm "" "To Read" number_5)
          (mkEditBookForm "" "To Read" number_5 "")
          (mkQuoteForm "" "" 1)
          None.

Abbreviation M := (Js State).

Definition setBooks (v : json) : M unit :=
  set_ui (λ s, mkState v (quotes s) (booksWithQuotes s) (loading s)
    (selectedBook s) (showAddBook s) (showAddQuote s) (showEditBook s)
    (bookForm s) (editBookForm s) (quoteForm s) (editingBook s)).

Definition setQuotes (v : json) : M unit :=
  set_ui (λ s, mkState (books s) v (booksWithQuotes s) (loading s)
    (selectedBook s) (showAddBook s) (showAddQuote s) (showEditBook s)
    (bookForm s) (editBookForm s) (quoteForm s) (editingBook s)).

Definition setBooksWithQuotes (v : json) : M unit :=
  set_ui (λ s, mkState (books s) (quotes s) v (loading s)
    (selectedBook s) (showAddBook s) (showAddQuote s) (showEditBook s)
    (bookForm s) (editBookForm s) (quoteForm s) (editingBook s)).

Definition setLoading (v : bool) : M unit :=
  set_ui (λ s, mkState (books s) (quotes s) (booksWithQuotes s) v
    (selectedBook s) (showAddBook s) (showAddQuote s) (showEditBook s)
    (bookForm s) (editBookForm s) (quoteForm s) (editingBook s)).

Definition setSelectedBook (v : element json) : M unit :=
  set_ui (λ s, mkState (books s) (quotes s) (booksWithQuotes s) (loading s)
    v (showAddBook s) (showAddQuote s) (showEditBook s)
    (bookForm s) (editBookForm s) (quoteForm s) (editingBook s)).

Definition setShowAddBook (v : bool) : M unit :=
  set_ui (λ s, mkState (books s) (quotes s) (booksWithQuotes s) (loading s)
    (selectedBook s) v (showAddQuote s) (showEditBook s)
    (bookForm s) (editBookForm s) (quoteForm s) (editingBook s)).

Definition setShowAddQuote (v : bool) : M unit :=
  set_ui (λ s, mkState (books s) (quotes s) (booksWithQuotes s) (loading s)
    (selectedBook s) (showAddBook s) v (showEditBook s)
    (bookForm s) (editBookForm s) (quoteForm s) (editingBook s)).

Definition setShowEditBook (v : bool) : M unit :=
  set_ui (λ s, mkState (books s) (quotes s) (booksWithQuotes s) (loading s)
    (selectedBook s) (showAddBook s) (showAddQuote s) v
    (bookForm s) (editBookForm s) (quoteForm s) (editingBook s)).

Definition setBookForm (v : BookForm) : M unit :=
  set_ui (λ s, mkState (books s) (quotes s) (booksWithQuotes s) (loading s)
    (selectedBook s) (showAddBook s) (showAddQuote s) (showEditBook s)
    v (editBookForm s) (quoteForm s) (editingBook s)).

Definition setEditBookForm (v : EditBookForm) : M unit :=
  set_ui (λ s, mkState (books s) (quotes s) (booksWithQuotes s) (loading s)
    (selectedBook s) (showAddBook s) (showAddQuote s) (showEditBook s)
    (bookForm s) v (quoteForm s) (editingBook s)).

Definition setQuoteForm (v : QuoteForm) : M unit :=
  set_ui (λ s, mkState (books s) (quotes s) (booksWithQuotes s) (loading s)
    (selectedBook s) (showAddBook s) (showAddQuote s) (showEditBook s)
    (bookForm s) (editBookForm s) v (editingBook s)).

Definition setEditingBook (v : option string) : M unit :=
  set_ui (λ s, mkState (books s) (quotes s) (booksWithQuotes s) (loading s)
    (selectedBook s) (showAddBook s) (showAddQuote s) (showEditBook s)
    (bookForm s) (editBookForm s) (quoteForm s) v).

(** *** The initial load (lines 39-72 and 96-99) *)

(** What [await Promise.all([...])] resumes with. *)
Inductive all_settled :=
  | AllFulfilled (booksRes quotesRes bwqRes : json)
  | FirstRejected (err : exn).

Definition loadAll : M unit :=
  setLoading true;;
  axios_get (API +:+ "/books/") (AwaitLoadAll Books);;
  axios_get (API +:+ "/quotes/") (AwaitLoadAll Quotes);;
  axios_get (API +:+ "/books-with-quotes/") (AwaitLoadAll BooksWithQuotes);;
  set_promise_all (Some (mkSlots None None None)).

Definition loadAll_resume (r : all_settled) : M unit :=
  try_finally
    (try_catch
       (match r with
        | AllFulfilled booksRes quotesRes bwqRes =>
            c ← get_cancelled;
            if c : bool then mret tt
            else
              setBooks booksRes;;
              setQuotes quotesRes;;
              setBooksWithQuotes bwqRes
        | FirstRejected err => throw err
        end)
       (λ err,
          c ← get_cancelled;
          if negb c then
            console_error err;;
            toast_emit (toast_error "Failed to load data")
          else mret tt))
    (c ← get_cancelled;
     if negb c then setLoading false else mret tt).

(** The effect run on mount, and the clean-up it returns. *)
Definition useEffect : M unit :=
  set_cancelled false;;
  loadAll.

Definition useEffect_cleanup : M unit :=
  set_cancelled true.

(** [Promise.all]: it rejects with the first rejection, fulfils once every
    slot is fulfilled, and ignores whatever settles after it has settled. *)
Definition promise_all_settle (c : collection) (r : response) : M unit :=
  λ w,
    match promise_all w with
    | None => (Normal tt, w)
    | Some s =>
        match r with
        | Rejected e =>
            (set_promise_all None;; loadAll_resume (FirstRejected e)) w
        | Fulfilled d =>
            match all_fulfilled (fill c d s) with
            | Some (b, q, bw) =>
                (set_promise_all None;; loadAll_resume (AllFulfilled b q bw)) w
            | None => set_promise_all (Some (fill c d s)) w
            end
        end
    end.

(** *** The per-collection fetch functions (lines 102-142) *)

Definition fetchBooks : M unit :=
  axios_get (API +:+ "/books") (AwaitFetch Books).

Definition fetchBooks_resume (r : response) : M unit :=
  try_catch
    (response ← await r;
     setBooks response;;
     localStorage_setItem "books" (JSON_stringify response))
    (λ e,
       console_error e;;
       cached ← localStorage_getItem "books";
       match cached with
       | Some text => if falsy text then mret tt
                      else v ← JSON_parse_js text; setBooks v
       | None => mret tt
       end;;
       toast_emit (toast_error "Failed to fetch books")).

Definition fetchBooksWithQuotes : M unit :=
  axios_get (API +:+ "/books-with-quotes") (AwaitFetch BooksWithQuotes).

Definition fetchBooksWithQuotes_resume (r : response) : M unit :=
  try_catch
    (response ← await r;
     setBooksWithQuotes response;;
     localStorage_setItem "booksWithQuotes" (JSON_stringify response))
    (λ e,
       console_error e;;
       cached ← localStorage_getItem "booksWithQuotes";
       match cached with
       | Some text => if falsy text then mret tt
                      else v ← JSON_parse_js text; setBooksWithQuotes v
       | None => mret tt
       end;;
       toast_emit (toast_error "Failed to fetch books with quotes")).

Definition fetchQuotes : M unit :=
  axios_get (API +:+ "/quotes") (AwaitFetch Quotes).

Definition fetchQuotes_resume (r : response) : M unit :=
  try_catch
    (response ← await r;
     setQuotes response;;
     localStorage_setItem "quotes" (JSON_stringify response))
    (λ e,
       console_error e;;
       cached ← localStorage_getItem "quotes";
       match cached with
       | Some text => if falsy text then mret tt
                      else v ← JSON_parse_js text; setQuotes v
       | None => mret tt
       end;;
       toast_emit (toast_error "Failed to fetch quotes")).

(** *** The mutations (lines 144-257) *)

Definition addBook : M unit :=
  s ← get_ui;
  if falsy (trim (bf_title (bookForm s))) then
    toast_emit (toast_error "Title is required")
  else
    axios_post (API +:+ "/books") (BookBody (bookForm s)) (AwaitMutation AddBook).

Definition addBook_resume (r : response) : M unit :=
  try_catch
    (await r;;
     toast_emit (toast_success "Book added successfully");;
     setBookForm (mkBookForm "" "To Read" number_5);;
     setShowAddBook false;;
     fetchBooks;;
     fetchBooksWithQuotes)
    (λ e,
       console_error e;;
       toast_emit (toast_error "Failed to add book")).

Definition updateBook (title : string) (updates : BookUpdates) : M unit :=
  axios_put (API +:+ "/books/" +:+ encodeURIComponent title)
            (UpdatesBody updates) (AwaitMutation UpdateBook).

Definition updateBook_resume (r : response) : M unit :=
  try_catch
    (await r;;
     toast_emit (toast_success "Book updated successfully");;
     setEditingBook None;;
     setShowEditBook false;;
     fetchBooks;;
     fetchBooksWithQuotes)
    (λ e,
       console_error e;;
       toast_emit (toast_error "Failed to update book")).

Definition handleEditBook (title status : string) (rating : number) : M unit :=
  setEditBookForm (mkEditBookForm title status rating title);;
  setShowEditBook true.

Definition submitEditBook : M unit :=
  s ← get_ui;
  if falsy (trim (eb_title (editBookForm s))) then
    toast_emit (toast_error "Title is required")
  else
    updateBook (eb_originalTitle (editBookForm s))
               (mkBookUpdates (Some (eb_title (editBookForm s)))
                              (Some (eb_status (editBookForm s)))
                              (Some (eb_rating (editBookForm s)))).

(** [confirmed] is the answer of the user to [window.confirm]. *)
Definition deleteBook (title : string) (confirmed : bool) : M unit :=
  if negb confirmed then mret tt
  else
    axios_delete (API +:+ "/books/" +:+ encodeURIComponent title)
                 (AwaitMutation DeleteBook).

Definition deleteBook_resume (r : response) : M unit :=
  try_catch
    (await r;;
     toast_emit (toast_success "Book deleted successfully");;
     fetchBooks)
    (λ e,
       console_error e;;
       toast_emit (toast_error "Failed to delete book")).

Definition addQuote : M unit :=
  s ← get_ui;
  if falsy (trim (qf_text (quoteForm s))) then
    toast_emit (toast_error "Quote text is required")
  else
    axios_post (API +:+ "/quotes")
               (QuoteBody (selectedBook s) (qf_text (quoteForm s))
                          (qf_user_id (quoteForm s))
                          (qf_discussion (quoteForm s)))
               (AwaitMutation AddQuote).

Definition addQuote_resume (r : response) : M unit :=
  try_catch
    (await r;;
     toast_emit (toast_success "Quote added successfully");;
     setQuoteForm (mkQuoteForm "" "" 1);;
     setShowAddQuote false;;
     fetchQuotes;;
     fetchBooksWithQuotes)
    (λ e,
       console_error e;;
       toast_emit (toast_error "Failed to add quote")).

Definition updateQuoteDiscussion (bookTitle quoteText discussion : string) : M unit :=
  axios_put (API +:+ "/quotes/" +:+ encodeURIComponent bookTitle +:+ "/"
               +:+ encodeURIComponent quoteText)
            (DiscussionBody discussion) (AwaitMutation UpdateQuoteDiscussion).

Definition updateQuoteDiscussion_resume (r : response) : M unit :=
  try_catch
    (await r;;
     toast_emit (toast_success "Discussion updated");;
     fetchQuotes)
    (λ e,
       console_error e;;
       toast_emit (toast_error "Failed to update discussion")).

Definition deleteQuote (bookTitle quoteText : string) (confirmed : bool) : M unit :=
  if negb confirmed then mret tt
  else
    axios_delete (API +:+ "/quotes/" +:+ encodeURIComponent bookTitle +:+ "/"
                    +:+ encodeURIComponent quoteText)
                 (AwaitMutation DeleteQuote).

Definition deleteQuote_resume (r : response) : M unit :=
  try_catch
    (await r;;
     toast_emit (toast_success "Quote deleted successfully");;
     fetchQuotes;;
     fetchBooksWithQuotes)
    (λ e,
       console_error e;;
       toast_emit (toast_error "Failed to delete quote")).

(** Clicking a quote card (lines 472-475): [bookTitle] is the element of
    [booksWithQuotes] the card was drawn for, whatever it is. *)
Definition onClick_quote_book_card (bookTitle : element json) : M unit :=
  setSelectedBook bookTitle;;
  setShowAddQuote true.

(** *** The event loop *)

Definition fetch_resume (c : collection) : response → M unit :=
  match c with
  | Books => fetchBooks_resume
  | Quotes => fetchQuotes_resume
  | BooksWithQuotes => fetchBooksWithQuotes_resume
  end.

Definition mutation_resume (m : mutation) : response → M unit :=
  match m with
  | AddBook => addBook_resume
  | UpdateBook => updateBook_resume
  | DeleteBook => deleteBook_resume
  | AddQuote => addQuote_resume
  | UpdateQuoteDiscussion => updateQuoteDiscussion_resume
  | DeleteQuote => deleteQuote_resume
  end.

Definition resume (k : waiter) (r : response) : M unit :=
  match k with
  | AwaitFetch c => fetch_resume c r
  | AwaitMutation m => mutation_resume m r
  | AwaitLoadAll c => promise_all_settle c r
  end.

(** The [i]-th request in flight settles as [r]. *)
Definition deliver (i : nat) (r : response) (w : World State) : World State :=
  match take_waiter i w with
  | Some (k, w') => run (resume k r) w'
  | None => w
  end.

Inductive event :=
  | Respond (i : nat) (r : response)
  | Unmount.

Definition step (w : World State) (e : event) : World State :=
  match e with
  | Respond i r => deliver i r w
  | Unmount => run useEffect_cleanup w
  end.

Definition steps (es : list event) (w : World State) : World State :=
  fold_left step es w.

(** A freshly created component: initial state, nothing sent, and whatever
    the browser has kept in [localStorage]. *)
Definition fresh (store : gmap string string) : World State :=
  mkWorld initial_state [initial_state] store [] [] [] [] false None [].

Definition mounted (store : gmap string string) : World State :=
  run useEffect (fresh store).

(** The cache key and the collection cell of each collection. *)
Definition cache_key (c : collection) : string :=
  match c with
  | Books => "books"
  | Quotes => "quotes"
  | BooksWithQuotes => "booksWithQuotes"
  end.

Definition cell (c : collection) (s : State) : json :=
  match c with
  | Books => books s
  | Quotes => quotes s
  | BooksWithQuotes => booksWithQuotes s
  end.

(** *** Reading the source as tables

    The messages and URLs below are the literals of the source, indexed by
    the function they occur in. *)

Definition fetch_url (c : collection) : string :=
  match c with
  | Books => API +:+ "/books"
  | Quotes => API +:+ "/quotes"
  | BooksWithQuotes => API +:+ "/books-with-quotes"
  end.

Definition fetch_request (c : collection) : request :=
  mkRequest GET (fetch_url c) None.

Definition fetch_failure_message (c : collection) : string :=
  match c with
  | Books => "Failed to fetch books"
  | Quotes => "Failed to fetch quotes"
  | BooksWithQuotes => "Failed to fetch books with quotes"
  end.

Definition failure_message (m : mutation) : string :=
  match m with
  | AddBook => "Failed to add book"
  | UpdateBook => "Failed to update book"
  | DeleteBook => "Failed to delete book"
  | AddQuote => "Failed to add quote"
  | UpdateQuoteDiscussion => "Failed to update discussion"
  | DeleteQuote => "Failed to delete quote"
  end.

(** The fetch functions a mutation calls after its write has succeeded, in
    the order of the calls. *)
Definition refreshes (m : mutation) : list collection :=
  match m with
  | AddBook => [Books; BooksWithQuotes]
  | UpdateBook => [Books; BooksWithQuotes]
  | DeleteBook => [Books]
  | AddQuote => [Quotes; BooksWithQuotes]
  | UpdateQuoteDiscussion => [Quotes]
  | DeleteQuote => [Quotes; BooksWithQuotes]
  end.

(** *** Completion orders of the initial load

    A schedule lists, in the order in which they settle, the initial fetches
    that have settled and how.  [settle] finds the request of a slot among
    the requests in flight and delivers its response. *)

Definition waits_in_slot (c : collection) (k : waiter) : bool :=
  match k with
  | AwaitLoadAll c' => bool_decide (c = c')
  | _ => false
  end.

Fixpoint index_where {A} (p : A → bool) (l : list A) : option nat :=
  match l with
  | [] => None
  | x :: l' => if p x then Some 0 else S <$> index_where p l'
  end.

Definition settle (w : World State) (cr : collection * response) : World State :=
  match index_where (waits_in_slot cr.1) (inflight w) with
  | Some i => deliver i cr.2 w
  | None => w
  end.

Definition play (schedule : list (collection * response)) (w : World State)
  : World State :=
  fold_left settle schedule w.

(** The reason of the first rejection of a schedule, if any. *)
Fixpoint first_rejection (schedule : list (collection * response)) : option exn :=
  match schedule with
  | [] => None
  | (_, Rejected e) :: _ => Some e
  | (_, Fulfilled _) :: rest => first_rejection rest
  end.

(** The data a schedule delivers for a collection, if it fulfils it. *)
Fixpoint delivered (c : collection) (schedule : list (collection * response))
  : option json :=
  match schedule with
  | [] => None
  | (c', r) :: rest =>
      if bool_decide (c = c') then
        match r with Fulfilled d => Some d | Rejected _ => None end
      else delivered c rest
  end.

(** Only the requests of the initial load are in flight. *)
Definition only_initial_load (w : World State) : Prop :=
  Forall (λ k, ∃ c, k = AwaitLoadAll c) (inflight w).

End Component.
End Unnamed000.

(** ** The revision of [src/frontend/src/App.js]

    The functions of this file are embedded as they are written.  The
    component itself cannot be mounted: its markup reads [booksWithQuotes]
    (line 354), which the file does not declare, so the first call of [App]
    throws a [ReferenceError] before any effect runs or any handler exists.
    What is proved about this revision is about its functions. *)

Module FrontendApp.
Section Component.
Context `{Platform}.

Record QuoteForm := mkQuoteForm { qf_text : string; qf_discussion : string }.

(** The [useState] cells of this revision: there is no [booksWithQuotes] and
    no [loading] cell, and the author of a quote is the toggle [currentUser]. *)
Record State := mkState {
  books : json;
  quotes : json;
  selectedBook : element json;
  showAddBook : bool;
  showAddQuote : bool;
  showEditBook : bool;
  currentUser : nat;
  bookForm : BookForm;
  editBookForm : EditBookForm;
  quoteForm : QuoteForm;
  editingBook : option string;
}.

Definition initial_state : State :=
  mkState json_empty_array json_empty_array Null false false false 1
          (mkBookForm "" "To Read" number_5)
          (mkEditBookForm "" "To Read" number_5 "")
          (mkQuoteForm "" "")
          None.

Abbreviation M := (Js State).

Definition setBooks (v : json) : M unit :=
  set_ui (λ s, mkState v (quotes s) (selectedBook s) (showAddBook s)
    (showAddQuote s) (showEditBook s) (currentUser s) (bookForm s)
    (editBookForm s) (quoteForm s) (editingBook s)).

Definition setQuotes (v : json) : M unit :=
  set_ui (λ s, mkState (books s) v (selectedBook s) (showAddBook s)
    (showAddQuote s) (showEditBook s) (currentUser s) (bookForm s)
    (editBookForm s) (quoteForm s) (editingBook s)).

Definition setSelectedBook (v : element json) : M unit :=
  set_ui (λ s, mkState (books s) (quotes s) v (showAddBook s)
    (showAddQuote s) (showEditBook s) (currentUser s) (bookForm s)
    (editBookForm s) (quoteForm s) (editingBook s)).

Definition setShowAddBook (v : bool) : M unit :=
  set_ui (λ s, mkState (books s) (quotes s) (selectedBook s) v
    (showAddQuote s) (showEditBook s) (currentUser s) (bookForm s)
    (editBookForm s) (quoteForm s) (editingBook s)).

Definition setShowAddQuote (v : bool) : M unit :=
  set_ui (λ s, mkState (books s) (quotes s) (selectedBook s) (showAddBook s)
    v (showEditBook s) (currentUser s) (bookForm s)
    (editBookForm s) (quoteForm s) (editingBook s)).

Definition setCurrentUser (v : nat) : M unit :=
  set_ui (λ s, mkState (books s) (quotes s) (selectedBook s) (showAddBook s)
    (showAddQuote s) (showEditBook s) v (bookForm s)
    (editBookForm s) (quoteForm s) (editingBook s)).

Definition setBookForm (v : BookForm) : M unit :=
  set_ui (λ s, mkState (books s) (quotes s) (selectedBook s) (showAddBook s)
    (showAddQuote s) (showEditBook s) (currentUser s) v
    (editBookForm s) (quoteForm s) (editingBook s)).

Definition setQuoteForm (v : QuoteForm) : M unit :=
  set_ui (λ s, mkState (books s) (quotes s) (selectedBook s) (showAddBook s)
    (showAddQuote s) (showEditBook s) (currentUser s) (bookForm s)
    (editBookForm s) v (editingBook s)).

Definition setEditingBook (v : option string) : M unit :=
  set_ui (λ s, mkState (books s) (quotes s) (selectedBook s) (showAddBook s)
    (showAddQuote s) (showEditBook s) (currentUser s) (bookForm s)
    (editBookForm s) (quoteForm s) v).

(** *** The fetch functions (lines 57-92) *)

Definition fetchBooks : M unit :=
  axios_get (API +:+ "/books") (AwaitFetch Books).

Definition fetchBooks_resume (r : response) : M unit :=
  try_catch
    (response ← await r;
     setBooks response;;
     localStorage_setItem "books" (JSON_stringify response))
    (λ e,
       console_error e;;
       cached ← localStorage_getItem "books";
       match cached with
       | Some text => if falsy text then mret tt
                      else v ← JSON_parse_js text; setBooks v
       | None => mret tt
       end;;
       toast_emit (toast_error "Failed to fetch books")).

Definition fetchQuotes : M unit :=
  axios_get (API +:+ "/quotes") (AwaitFetch Quotes).

Definition fetchQuotes_resume (r : response) : M unit :=
  try_catch
    (response ← await r;
     setQuotes response;;
     localStorage_setItem "quotes" (JSON_stringify response))
    (λ e,
       console_error e;;
       cached ← localStorage_getItem "quotes";
       match cached with
       | Some text => if falsy text then mret tt
                      else v ← JSON_parse_js text; setQuotes v
       | None => mret tt
       end;;
       toast_emit (toast_error "Failed to fetch quotes")).

Definition fetchBooksWithQuotes : M unit :=
  axios_get (API +:+ "/books-with-quotes") (AwaitFetch BooksWithQuotes).

(** [setBooksWithQuotes] is not declared anywhere in this file: evaluating
    the identifier throws a [ReferenceError], which the [catch] logs. *)
Definition fetchBooksWithQuotes_resume (r : response) : M unit :=
  try_catch
    (await r;;
     throw (ReferenceError "setBooksWithQuotes"))
    (λ e, console_error e).

(** *** The mutations (lines 94-180) *)

Definition addBook : M unit :=
  s ← get_ui;
  if falsy (trim (bf_title (bookForm s))) then
    toast_emit (toast_error "Title is required")
  else
    axios_post (API +:+ "/books") (BookBody (bookForm s)) (AwaitMutation AddBook).

Definition addBook_resume (r : response) : M unit :=
  try_catch
    (await r;;
     toast_emit (toast_success "Book added successfully");;
     setBookForm (mkBookForm "" "To Read" number_5);;
     setShowAddBook false;;
     fetchBooks)
    (λ e,
       console_error e;;
       toast_emit (toast_error "Failed to add book")).

Definition updateBook (title : string) (updates : BookUpdates) : M unit :=
  axios_put (API +:+ "/books/" +:+ encodeURIComponent title)
            (UpdatesBody updates) (AwaitMutation UpdateBook).

Definition updateBook_resume (r : response) : M unit :=
  try_catch
    (await r;;
     toast_emit (toast_success "Book updated successfully");;
     setEditingBook None;;
     fetchBooks)
    (λ e,
       console_error e;;
       toast_emit (toast_error "Failed to update book")).

Definition deleteBook (title : string) (confirmed : bool) : M unit :=
  if negb confirmed then mret tt
  else
    axios_delete (API +:+ "/books/" +:+ encodeURIComponent title)
                 (AwaitMutation DeleteBook).

Definition deleteBook_resume (r : response) : M unit :=
  try_catch
    (await r;;
     toast_emit (toast_success "Book deleted successfully");;
     fetchBooks)
    (λ e,
       console_error e;;
       toast_emit (toast_error "Failed to delete book")).

Definition addQuote : M unit :=
  s ← get_ui;
  if falsy (trim (qf_text (quoteForm s))) then
    toast_emit (toast_error "Quote text is required")
  else
    axios_post (API +:+ "/quotes")
               (QuoteBody (selectedBook s) (qf_text (quoteForm s))
                          (currentUser s)
                          (qf_discussion (quoteForm s)))
               (AwaitMutation AddQuote).

Definition addQuote_resume (r : response) : M unit :=
  try_catch
    (await r;;
     toast_emit (toast_success "Quote added successfully");;
     setQuoteForm (mkQuoteForm "" "");;
     setShowAddQuote false;;
     fetchQuotes;;
     fetchBooksWithQuotes)
    (λ e,
       console_error e;;
       toast_emit (toast_error "Failed to add quote")).

Definition updateQuoteDiscussion (bookTitle quoteText discussion : string) : M unit :=
  axios_put (API +:+ "/quotes/" +:+ encodeURIComponent bookTitle +:+ "/"
               +:+ encodeURIComponent quoteText)
            (DiscussionBody discussion) (AwaitMutation UpdateQuoteDiscussion).

Definition updateQuoteDiscussion_resume (r : response) : M unit :=
  try_catch
    (await r;;
     toast_emit (toast_success "Discussion updated");;
     fetchQuotes)
    (λ e,
       console_error e;;
       toast_emit (toast_error "Failed to update discussion")).

Definition deleteQuote (bookTitle quoteText : string) (confirmed : bool) : M unit :=
  if negb confirmed then mret tt
  else
    axios_delete (API +:+ "/quotes/" +:+ encodeURIComponent bookTitle +:+ "/"
                    +:+ encodeURIComponent quoteText)
                 (AwaitMutation DeleteQuote).

Definition deleteQuote_resume (r : response) : M unit :=
  try_catch
    (await r;;
     toast_emit (toast_success "Quote deleted successfully");;
     fetchQuotes;;
     fetchBooksWithQuotes)
    (λ e,
       console_error e;;
       toast_emit (toast_error "Failed to delete quote")).

(** The body of the mount effect (lines 33-36). *)
Definition useEffect : M unit :=
  fetchBooks;;
  fetchQuotes.

(** *** The event loop *)

Definition fetch_resume (c : collection) : response → M unit :=
  match c with
  | Books => fetchBooks_resume
  | Quotes => fetchQuotes_resume
  | BooksWithQuotes => fetchBooksWithQuotes_resume
  end.

Definition mutation_resume (m : mutation) : response → M unit :=
  match m with
  | AddBook => addBook_resume
  | UpdateBook => updateBook_resume
  | DeleteBook => deleteBook_resume
  | AddQuote => addQuote_resume
  | UpdateQuoteDiscussion => updateQuoteDiscussion_resume
  | DeleteQuote => deleteQuote_resume
  end.

(** This revision has no [Promise.all]: nothing ever waits in a slot. *)
Definition resume (k : waiter) (r : response) : M unit :=
  match k with
  | AwaitFetch c => fetch_resume c r
  | AwaitMutation m => mutation_resume m r
  | AwaitLoadAll _ => mret tt
  end.

Definition deliver (i : nat) (r : response) (w : World State) : World State :=
  match take_waiter i w with
  | Some (k, w') => run (resume k r) w'
  | None => w
  end.

(** A world to run the functions of this file in: the initial values of
    its [useState] cells, nothing sent. *)
Definition fresh (store : gmap string string) : World State :=
  mkWorld initial_state [initial_state] store [] [] [] [] false None [].

(** The fetch functions a mutation of this file calls after its write has
    succeeded, in the order of the calls. *)
Definition refreshes (m : mutation) : list collection :=
  match m with
  | AddBook => [Books]
  | UpdateBook => [Books]
  | DeleteBook => [Books]
  | AddQuote => [Quotes; BooksWithQuotes]
  | UpdateQuoteDiscussion => [Quotes]
  | DeleteQuote => [Quotes; BooksWithQuotes]
  end.

End Component.
End FrontendApp.

(** ** A concrete platform

    An executable instance of [Platform], used to run the component on
    concrete inputs: JSON values with integer numbers, a serialiser, a parser
    for what the serialiser writes (and for white space between tokens), and
    percent-encoding of the bytes of the text, which is what
    [encodeURIComponent] does to the UTF-8 encoding of a string. *)

Module Fixture.

#[warnings="-register-all"]
Inductive value :=
  | VNull
  | VBool (b : bool)
  | VNum (n : Z)
  | VStr (s : string)
  | VArr (l : list value)
  | VObj (l : list (string * value)).

(** The characters U+0022 and U+005C, which a string literal escapes. *)
Definition dquote : ascii := ascii_of_nat 34.
Definition backslash : ascii := ascii_of_nat 92.

Definition special (a : ascii) : bool :=
  Ascii.eqb a dquote || Ascii.eqb a backslash.

Fixpoint escape (s : string) : string :=
  match s with
  | EmptyString => EmptyString
  | String a s' =>
      if special a then String backslash (String a (escape s'))
      else String a (escape s')
  end.

Definition quote (s : string) : string :=
  String dquote (escape s +:+ String dquote EmptyString).

Fixpoint digits_of_pos (fuel : nat) (n : N) (acc : string) : string :=
  match fuel with
  | O => acc
  | S fuel' =>
      let d := ascii_of_N (48 + n mod 10) in
      if (n <? 10)%N then String d acc
      else digits_of_pos fuel' (n / 10) (String d acc)
  end.

Definition string_of_Z (n : Z) : string :=
  let m := Z.to_N (Z.abs n) in
  let ds := digits_of_pos (S (N.to_nat m)) m "" in
  if (n <? 0)%Z then String "-" ds else ds.

Definition join (sep : string) (parts : list string) : string :=
  match parts with
  | [] => ""
  | p :: ps => fold_left (λ acc q, acc +:+ sep +:+ q) ps p
  end.

Fixpoint stringify (v : value) : string :=
  match v with
  | VNull => "null"
  | VBool true => "true"
  | VBool false => "false"
  | VNum n => string_of_Z n
  | VStr s => quote s
  | VArr l => "[" +:+ join "," (map stringify l) +:+ "]"
  | VObj l =>
      "{" +:+ join "," (map (λ kv, quote (fst kv) +:+ ":" +:+ stringify (snd kv)) l)
          +:+ "}"
  end.

Fixpoint skip_ws (s : string) : string :=
  match s with
  | String a s' => if Ascii.is_space a then skip_ws s' else s
  | EmptyString => EmptyString
  end.

(** The text of a string literal after its opening quote. *)
Fixpoint parse_string_body (s : string) : option (string * string) :=
  match s with
  | EmptyString => None
  | String a s' =>
      if Ascii.eqb a dquote then Some (EmptyString, s')
      else if Ascii.eqb a backslash then
        match s' with
        | String b s'' =>
            if special b then
              '(t, r) ← parse_string_body s''; Some (String b t, r)
            else None
        | EmptyString => None
        end
      else '(t, r) ← parse_string_body s'; Some (String a t, r)
  end.

Fixpoint parse_digits (s : string) (acc : option Z) : option Z * string :=
  match s with
  | String a s' =>
      match Ascii.is_nat a with
      | Some d => parse_digits s' (Some (10 * default 0 acc + Z.of_nat d))%Z
      | None => (acc, s)
      end
  | EmptyString => (acc, s)
  end.

Definition parse_number (s : string) : option (value * string) :=
  match s with
  | String "-" s' =>
      match parse_digits s' None with
      | (Some n, r) => Some (VNum (- n), r)
      | (None, _) => None
      end
  | _ =>
      match parse_digits s None with
      | (Some n, r) => Some (VNum n, r)
      | (None, _) => None
      end
  end.

Section Sequences.
Context {A : Type} (item : string → option (A * string)) (close : ascii).

(** Items separated by commas up to the closing bracket. *)
Fixpoint parse_items (fuel : nat) (s : string) : option (list A * string) :=
  match fuel with
  | O => None
  | S fuel' =>
      '(x, r) ← item s;
      match skip_ws r with
      | String a r' =>
          if Ascii.eqb a "," then
            '(xs, r'') ← parse_items fuel' r'; Some (x :: xs, r'')
          else if Ascii.eqb a close then Some ([x], r')
          else None
      | EmptyString => None
      end
  end.

Definition parse_sequence (fuel : nat) (s : string) : option (list A * string) :=
  match skip_ws s with
  | String a r =>
      if Ascii.eqb a close then Some ([], r) else parse_items fuel s
  | EmptyString => None
  end.
End Sequences.

Definition parse_member (pv : string → option (value * string)) (s : string)
  : option ((string * value) * string) :=
  match skip_ws s with
  | String a r =>
      if Ascii.eqb a dquote then
        '(k, r1) ← parse_string_body r;
        match skip_ws r1 with
        | String ":" r2 => '(v, r3) ← pv r2; Some ((k, v), r3)
        | _ => None
        end
      else None
  | EmptyString => None
  end.

Fixpoint parse_value (fuel : nat) (s : string) : option (value * string) :=
  match fuel with
  | O => None
  | S fuel' =>
      match skip_ws s with
      | String "n" (String "u" (String "l" (String "l" r))) => Some (VNull, r)
      | String "t" (String "r" (String "u" (String "e" r))) => Some (VBool true, r)
      | String "f" (String "a" (String "l" (String "s" (String "e" r)))) =>
          Some (VBool false, r)
      | String "[" r =>
          '(l, r') ← parse_sequence (parse_value fuel') "]" fuel' r;
          Some (VArr l, r')
      | String "{" r =>
          '(l, r') ← parse_sequence (parse_member (parse_value fuel')) "}" fuel' r;
          Some (VObj l, r')
      | String a r =>
          if Ascii.eqb a dquote then
            '(t, r') ← parse_string_body r; Some (VStr t, r')
          else parse_number (String a r)
      | EmptyString => None
      end
  end.

Definition parse (s : string) : option value :=
  match parse_value (S (String.length s)) s with
  | Some (v, r) => if falsy (skip_ws r) then Some v else None
  | None => None
  end.

Definition unreserved (a : ascii) : bool :=
  let n := nat_of_ascii a in
  ((48 <=? n) && (n <=? 57))%nat || ((65 <=? n) && (n <=? 90))%nat
  || ((97 <=? n) && (n <=? 122))%nat
  || existsb (Ascii.eqb a) (list_ascii_of_string "-_.!~*'()").

Definition hex_digit (n : nat) : ascii :=
  if (n <? 10)%nat then ascii_of_nat (48 + n) else ascii_of_nat (55 + n).

Fixpoint percent_encode (s : string) : string :=
  match s with
  | EmptyString => EmptyString
  | String a s' =>
      if unreserved a then String a (percent_encode s')
      else
        let n := nat_of_ascii a in
        String "%" (String (hex_digit (n / 16))
                           (String (hex_digit (n mod 16)) (percent_encode s')))
  end.

(** An element of an array as the component reads it. *)
Definition element_of (v : value) : element value :=
  match v with
  | VNull => Null
  | VStr s => Str s
  | _ => Other v
  end.

Definition array_entries (v : value) : list (element value) :=
  match v with
  | VArr l => map element_of l
  | _ => []
  end.

#[export] Instance platform : Platform := {|
  json := value;
  number := Z;
  json_empty_array := VArr [];
  number_5 := 5%Z;
  JSON_stringify := stringify;
  JSON_parse := parse;
  entries := array_entries;
  encodeURIComponent := percent_encode;
  BACKEND_URL := "http://localhost:8001";
|}.

Definition dune : value :=
  VObj [("title", VStr "Dune"); ("status", VStr "To Read"); ("rating", VNum 8);
        ("number", VNum 1)].

Definition spice : value :=
  VObj [("book_title", VStr "Dune"); ("text", VStr "Fear is the mind-killer");
        ("user_id", VNum 2); ("discussion", VStr "")].

End Fixture.

Module U := Unnamed000.
Module F := FrontendApp.

(** ** Concrete runs on the concrete platform *)

Module Scenario.
Import Fixture.

Definition offline : exn := NetworkError "Network Error".

Definition books_payload : json := VArr [dune].
Definition quotes_payload : json := VArr [spice].
Definition titles_payload : json := VArr [VStr "Dune"].

(** A store holding a snapshot of each collection. *)
Definition snapshots : gmap string string :=
  <["books" := stringify books_payload]>
    (<["quotes" := stringify quotes_payload]>
       (<["booksWithQuotes" := stringify titles_payload]> ∅)).

(** A store whose [books] entry is not JSON, and one whose [quotes] entry
    is a snapshot cut short. *)
Definition corrupted : gmap string string := <["books" := "{oops"]> ∅.

Definition truncated : gmap string string :=
  <["quotes" := "[{"]> (<["books" := stringify books_payload]> ∅).

(** A list of books with quotes that holds [null]: some quote was stored
    without a book title. *)
Definition orphans_payload : json := VArr [VStr "Dune"; VNull].

(** [part_000]: the component after an initial load that succeeded, showing
    one book, one quote and one quote card. *)
Definition loaded : World U.State :=
  U.play [(Books, Fulfilled books_payload);
          (Quotes, Fulfilled quotes_payload);
          (BooksWithQuotes, Fulfilled titles_payload)]
         (U.mounted ∅).

(** The same with the forms filled in: a new book, a renamed book and a
    quote on the selected book. *)
Definition filled : World U.State :=
  run (U.setBookForm (mkBookForm "Emma" "To Read" 7%Z);;
       U.setEditBookForm (mkEditBookForm "Dune Messiah" "Reading" 9%Z "Dune");;
       U.setSelectedBook (Str "Dune");;
       U.setQuoteForm (U.mkQuoteForm "Fear is the mind-killer" "" 2))
      loaded.

(** [part_000]: a re-fetch of a collection is in flight over a given store. *)
Definition refetching (c : collection) (store : gmap string string)
  : World U.State :=
  run (match c with
       | Books => U.fetchBooks
       | Quotes => U.fetchQuotes
       | BooksWithQuotes => U.fetchBooksWithQuotes
       end) (U.fresh store).

(** [part_000]: the add-quote form holds a text, no quote card having been
    clicked. *)
Definition quoting : World U.State :=
  run (U.setQuoteForm (U.mkQuoteForm "Fear is the mind-killer" "" 1))
      (U.fresh ∅).

(** [App.js]: the cells hold one book and one quote; and the same quote
    form. *)
Definition F_loaded : World F.State :=
  run (F.setBooks books_payload;; F.setQuotes quotes_payload) (F.fresh ∅).

Definition F_quoting : World F.State :=
  run (F.setQuoteForm (F.mkQuoteForm "Fear is the mind-killer" ""))
      (F.fresh ∅).

End Scenario.

(** ** What the component shows

    The data parts of the JSX: the rating icons of a book row and the quote
    cards of the quotes tab.  A rating is a JSON number, that is a finite
    double, taken here as the rational it denotes: [Math.floor], [% 1] and
    [Math.round] are exact on it. *)

Module Rendering.

(** [Array.from({ length: n })] for an integral [n]: the length is clamped at
    zero from below, and an array of more than [2^32 - 1] elements is a
    [RangeError] ([None]). *)
Definition Array_from_length (n : Z) : option nat :=
  if (n <? 0)%Z then Some 0
  else if (n <? 2 ^ 32)%Z then Some (Z.to_nat n)
  else None.

(** [x % 1]: the remainder of the division that truncates towards zero. *)
Definition mod_1 (x : Q) : Q :=
  Qminus x (inject_Z (if Qle_bool (inject_Z 0) x then Qfloor x else Qceiling x)).

(** [Math.round(x)]: the nearest integer, the upper one of two nearest. *)
Definition Math_round (x : Q) : Z := Qfloor (Qplus x (Qmake 1 2)).

Inductive hexagon := Filled | Outline.

(** [renderHexagons] of [part_000] (lines 259-273): the filled icons, then
    one outlined icon when the rating has a fractional part. *)
Definition renderHexagons (rating : Q) : option (list hexagon) :=
  let fullHexagons := Qfloor rating in
  let hasFractional := negb (Qeq_bool (mod_1 rating) (inject_Z 0)) in
  full ← Array_from_length fullHexagons;
  Some (replicate full Filled ++ (if hasFractional then [Outline] else [])).

(** [renderHexagons] of [App.js] (lines 182-191). *)
Definition F_renderHexagons (rating : Q) : option (list hexagon) :=
  let count := Math_round rating in
  n ← Array_from_length count;
  Some (replicate n Filled).

(** A property of a record of the server as the component reads it: absent,
    [null], or a string. *)
Inductive field :=
  | Missing
  | Null
  | Text (s : string).

Global Instance field_eq_dec : EqDecision field.
Proof. solve_decision. Defined.

Record Quote := mkQuote {
  book_title : field;
  text : string;
  user_id : nat;
  discussion : string;
}.

Global Instance Quote_eq_dec : EqDecision Quote.
Proof. solve_decision. Defined.

(** [getQuotesForBook] (lines 275-277), on the array held in [quotes]. *)
Definition getQuotesForBook (quotes : list Quote) (bookTitle : field)
  : list Quote :=
  filter (λ q, book_title q = bookTitle) quotes.

(** A quote card (lines 468-510): its heading, the count it prints and the
    quotes it lists. *)
Record Card := mkCard {
  card_title : field;
  card_count : nat;
  card_quotes : list Quote;
}.

Definition quotes_grid (booksWithQuotes : list field) (quotes : list Quote)
  : list Card :=
  map (λ bookTitle,
         mkCard bookTitle (length (getQuotesForBook quotes bookTitle))
                (getQuotesForBook quotes bookTitle))
      booksWithQuotes.

(** Every quote listed on some card, card after card. *)
Definition shown (cards : list Card) : list Quote :=
  concat (map card_quotes cards).

End Rendering.

(** ** The event handlers of the JSX of [part_000] (lines 279-517)

    Each constructor is one handler of the markup, with the value the widget
    hands to it; [perform] is the body of the handler.  The controls inside a
    [Dialog] exist only while its [open] prop is [true]; every other control
    is taken to be available at any time. *)

Module Interaction.
Section Handlers.
Context `{Platform}.

Inductive action :=
  | AddBookDialog_onOpenChange (open : bool)
  | BookTitle_onChange (value : string)
  | BookStatus_onValueChange (value : string)
  | BookRating_onChange (parsed : number)
  | SubmitBook_onClick
  | EditBookDialog_onOpenChange (open : bool)
  | EditTitle_onChange (value : string)
  | EditStatus_onValueChange (value : string)
  | EditRating_onChange (parsed : number)
  | SubmitEditBook_onClick
  | RowStatus_onValueChange (title value : string)
  | RowEdit_onClick (title status : string) (rating : number)
  | RowDelete_onClick (title : string) (confirmed : bool)
  | AddQuoteDialog_onOpenChange (open : bool)
  | QuoteUser_onValueChange (parsed : nat)
  | QuoteText_onChange (value : string)
  | QuoteDiscussion_onChange (value : string)
  | SubmitQuote_onClick
  | Card_onClick (bookTitle : element json)
  | QuoteDelete_onClick (book_title text : string) (confirmed : bool).

Definition perform (a : action) : Js U.State unit :=
  match a with
  | AddBookDialog_onOpenChange open => U.setShowAddBook open
  | BookTitle_onChange value =>
      s ← get_ui;
      U.setBookForm (mkBookForm value (bf_status (U.bookForm s))
                                (bf_rating (U.bookForm s)))
  | BookStatus_onValueChange value =>
      s ← get_ui;
      U.setBookForm (mkBookForm (bf_title (U.bookForm s)) value
                                (bf_rating (U.bookForm s)))
  | BookRating_onChange parsed =>
      s ← get_ui;
      U.setBookForm (mkBookForm (bf_title (U.bookForm s))
                                (bf_status (U.bookForm s)) parsed)
  | SubmitBook_onClick => U.addBook
  | EditBookDialog_onOpenChange open => U.setShowEditBook open
  | EditTitle_onChange value =>
      s ← get_ui;
      U.setEditBookForm
        (mkEditBookForm value (eb_status (U.editBookForm s))
           (eb_rating (U.editBookForm s)) (eb_originalTitle (U.editBookForm s)))
  | EditStatus_onValueChange value =>
      s ← get_ui;
      U.setEditBookForm
        (mkEditBookForm (eb_title (U.editBookForm s)) value
           (eb_rating (U.editBookForm s)) (eb_originalTitle (U.editBookForm s)))
  | EditRating_onChange parsed =>
      s ← get_ui;
      U.setEditBookForm
        (mkEditBookForm (eb_title (U.editBookForm s))
           (eb_status (U.editBookForm s)) parsed
           (eb_originalTitle (U.editBookForm s)))
  | SubmitEditBook_onClick => U.submitEditBook
  | RowStatus_onValueChange title value =>
      U.updateBook title (mkBookUpdates None (Some value) None)
  | RowEdit_onClick title status rating => U.handleEditBook title status rating
  | RowDelete_onClick title confirmed => U.deleteBook title confirmed
  | AddQuoteDialog_onOpenChange open => U.setShowAddQuote open
  | QuoteUser_onValueChange parsed =>
      s ← get_ui;
      U.setQuoteForm (U.mkQuoteForm (U.qf_text (U.quoteForm s))
                                    (U.qf_discussion (U.quoteForm s)) parsed)
  | QuoteText_onChange value =>
      s ← get_ui;
      U.setQuoteForm (U.mkQuoteForm value (U.qf_discussion (U.quoteForm s))
                                    (U.qf_user_id (U.quoteForm s)))
  | QuoteDiscussion_onChange value =>
      s ← get_ui;
      U.setQuoteForm (U.mkQuoteForm (U.qf_text (U.quoteForm s)) value
                                    (U.qf_user_id (U.quoteForm s)))
  | SubmitQuote_onClick => U.addQuote
  | Card_onClick bookTitle => U.onClick_quote_book_card bookTitle
  | QuoteDelete_onClick book_title text confirmed =>
      U.deleteQuote book_title text confirmed
  end.

(** Whether the control of a handler can be in the rendered tree: the
    controls of a dialog exist while the dialog is open; a row or a card is
    taken to exist for any book and any element. *)
Definition available (s : U.State) (a : action) : bool :=
  match a with
  | BookTitle_onChange _ | BookStatus_onValueChange _ | BookRating_onChange _
  | SubmitBook_onClick => U.showAddBook s
  | EditTitle_onChange _ | EditStatus_onValueChange _ | EditRating_onChange _
  | SubmitEditBook_onClick => U.showEditBook s
  | QuoteUser_onValueChange _ | QuoteText_onChange _
  | QuoteDiscussion_onChange _ | SubmitQuote_onClick => U.showAddQuote s
  | _ => true
  end.

(** What happens to the component: the user acts on a control, a request in
    flight settles, or the view is torn down. *)
Inductive input :=
  | User (a : action)
  | Network (i : nat) (r : response)
  | Teardown.

Definition react (w : World U.State) (x : input) : World U.State :=
  match x with
  | User a => if available (ui w) a then run (perform a) w else w
  | Network i r => U.deliver i r w
  | Teardown => run U.useEffect_cleanup w
  end.

Definition session (inputs : list input) (w : World U.State) : World U.State :=
  fold_left react inputs w.

(** The handlers of the three fields of the edit form. *)
Definition edits_the_form (a : action) : bool :=
  match a with
  | EditTitle_onChange _ | EditStatus_onValueChange _
  | EditRating_onChange _ => true
  | _ => false
  end.

(** The add-quote dialog has no trigger in the markup: the dialog widget
    reports openings only for a trigger, so this input does not occur. *)
Definition opens_quote_dialog (x : input) : bool :=
  match x with
  | User (AddQuoteDialog_onOpenChange true) => true
  | _ => false
  end.

(** What a request says about blank text: the title of a created book, the
    new title of a renamed book and the text of a created quote are not
    blank.  Nothing is said of the [book_title] of a quote. *)
Definition well_formed_body (b : body) : bool :=
  match b with
  | BookBody f => negb (whitespace_only (bf_title f))
  | UpdatesBody u =>
      match up_title u with
      | Some t => negb (whitespace_only t)
      | None => true
      end
  | QuoteBody _ text _ _ => negb (whitespace_only text)
  | DiscussionBody _ => true
  end.

(** The request is not the one of [updateQuoteDiscussion], and what it
    carries is not blank. *)
Definition request_ok (rq : request) : bool :=
  match req_body rq with
  | Some (DiscussionBody _) => false
  | Some b => well_formed_body b
  | None => true
  end.

(** The request does not create a quote whose [book_title] is [null]. *)
Definition names_a_book (rq : request) : bool :=
  match req_body rq with
  | Some (QuoteBody Null _ _ _) => false
  | _ => true
  end.

(** The elements of the quote cards clicked in a session. *)
Definition clicked (inputs : list input) : list (element json) :=
  omap (λ x, match x with
             | User (Card_onClick bookTitle) => Some bookTitle
             | _ => None
             end) inputs.

(** The [book_title] of every quote request is among the elements [seen],
    and so is [selectedBook] while the dialog is open. *)
Definition quotes_attached_to (seen : list (element json)) (w : World U.State)
  : Prop :=
  (U.showAddQuote (ui w) = true → U.selectedBook (ui w) ∈ seen)
  ∧ Forall (λ rq, ∀ b t u d, req_body rq = Some (QuoteBody b t u d) → b ∈ seen)
      (sent w).

(** The markup draws a quote card for every element of [booksWithQuotes]
    (line 469). *)
Definition card_rendered (s : U.State) (bookTitle : element json) : Prop :=
  bookTitle ∈ entries (U.booksWithQuotes s).

End Handlers.
End Interaction.

(** ** The paths of the requests *)

Module Paths.


End Paths.

Module I := Interaction.
Module R := Rendering.

(** * Properties *)

(** Symbolic execution: unfold the functions of a revision and the monad and
    reduce what becomes reducible.  The worlds are taken apart first, so that
    every projection meets a constructor. *)
Ltac unfold_runtime :=
  lazy beta iota zeta delta
    [run try_catch try_finally await throw get_ui set_ui toast_emit
     console_error localStorage_getItem localStorage_setItem JSON_parse_js
     axios axios_get axios_post axios_put axios_delete get_cancelled
     set_cancelled set_promise_all set_inflight mbind mret Js_bind Js_ret
     fill all_fulfilled take_waiter
     ui renders localStorage toasts console sent inflight cancelled
     promise_all unhandled slot_books slot_quotes slot_bwq fst snd
     U.deliver U.step U.resume U.fetch_resume U.mutation_resume
     U.promise_all_settle
     U.loadAll U.loadAll_resume U.useEffect U.useEffect_cleanup
     U.fetchBooks U.fetchBooks_resume U.fetchQuotes U.fetchQuotes_resume
     U.fetchBooksWithQuotes U.fetchBooksWithQuotes_resume
     U.addBook U.addBook_resume U.updateBook U.updateBook_resume
     U.deleteBook U.deleteBook_resume U.addQuote U.addQuote_resume
     U.updateQuoteDiscussion U.updateQuoteDiscussion_resume
     U.deleteQuote U.deleteQuote_resume U.submitEditBook U.handleEditBook
     U.setBooks U.setQuotes U.setBooksWithQuotes U.setLoading
     U.setSelectedBook U.setShowAddBook U.setShowAddQuote U.setShowEditBook
     U.setBookForm U.setEditBookForm U.setQuoteForm U.setEditingBook
     U.fetch_request U.fetch_url U.fetch_failure_message U.failure_message
     U.refreshes U.cache_key U.cell
     U.books U.quotes U.booksWithQuotes U.loading U.selectedBook
     U.showAddBook U.showAddQuote U.showEditBook U.bookForm U.editBookForm
     U.quoteForm U.editingBook U.qf_text U.qf_discussion U.qf_user_id
     F.deliver F.resume F.fetch_resume F.mutation_resume F.useEffect
     F.fetchBooks F.fetchBooks_resume F.fetchQuotes F.fetchQuotes_resume
     F.fetchBooksWithQuotes F.fetchBooksWithQuotes_resume
     F.addBook F.addBook_resume F.updateBook F.updateBook_resume
     F.deleteBook F.deleteBook_resume F.addQuote F.addQuote_resume
     F.updateQuoteDiscussion F.updateQuoteDiscussion_resume
     F.deleteQuote F.deleteQuote_resume F.refreshes
     F.setBooks F.setQuotes F.setSelectedBook F.setShowAddBook
     F.setShowAddQuote F.setCurrentUser F.setBookForm F.setQuoteForm
     F.setEditingBook
     F.books F.quotes F.selectedBook F.showAddBook F.showAddQuote
     F.showEditBook F.currentUser F.bookForm F.editBookForm F.quoteForm
     F.editingBook F.qf_text F.qf_discussion
     bf_title eb_title eb_status eb_rating eb_originalTitle
     map].

Ltac take_apart w :=
  let u := fresh "u" in
  destruct w as [u ? ? ? ? ? ? ? ? ?]; destruct u.

(** Case analysis on what the cache holds, then reduction of what is left. *)
Ltac split_cases :=
  repeat
    (match goal with
     | |- context [@lookup _ _ (gmap string string) _ ?k ?m] =>
         destruct (@lookup _ _ (gmap string string) _ k m) eqn:?
     | |- context [falsy ?s] => destruct (falsy s) eqn:?
     | |- context [JSON_parse ?s] => destruct (JSON_parse s) eqn:?
     end;
     unfold_runtime).

Section Delivery.
Context `{Platform}.

Lemma U_deliver_lookup (w : World U.State) i k r :
  inflight w !! i = Some k →
  U.deliver i r w = run (U.resume k r) (set_inflight (delete i (inflight w)) w).
Proof. intros Hk. unfold U.deliver, take_waiter. by rewrite Hk. Qed.

Lemma F_deliver_lookup (w : World F.State) i k r :
  inflight w !! i = Some k →
  F.deliver i r w = run (F.resume k r) (set_inflight (delete i (inflight w)) w).
Proof. intros Hk. unfold F.deliver, take_waiter. by rewrite Hk. Qed.

Lemma deliver_nothing (w : World U.State) i r :
  inflight w !! i = None → U.deliver i r w = w.
Proof. intros Hk. unfold U.deliver, take_waiter. by rewrite Hk. Qed.

(** *** What settling a per-collection fetch can change *)

(** A settled fetch sends nothing, leaves the cells of the other collections
    and the cache entries of the other collections alone ([part_000]). *)
Lemma U_fetch_frame (c : collection) (r : response) (w : World U.State) :
  let w' := run (U.fetch_resume c r) w in
  sent w' = sent w ∧ inflight w' = inflight w
  ∧ (∀ c', c' ≠ c → U.cell c' (ui w') = U.cell c' (ui w))
  ∧ (∀ c', c' ≠ c →
       localStorage w' !! U.cache_key c' = localStorage w !! U.cache_key c').
Proof.
  take_apart w.
  assert (Hk : ∀ c', c' ≠ c → U.cache_key c ≠ U.cache_key c')
    by (intros c' Hne; destruct c, c'; cbn; congruence).
  destruct r as [d|e].
  - destruct c; unfold_runtime;
      (split_and!; [reflexivity | reflexivity | |]);
      intros c' Hne; try (by destruct c'); apply lookup_insert_ne;
      by apply (Hk c').
  - destruct c; unfold_runtime; split_cases;
      (split_and!; [reflexivity | reflexivity | |]);
      intros c' Hne; try reflexivity; by destruct c'.
Qed.

(** The same for [src/frontend/src/App.js]. *)
Lemma F_fetch_frame (c : collection) (r : response) (w : World F.State) :
  let w' := run (F.fetch_resume c r) w in
  sent w' = sent w ∧ inflight w' = inflight w
  ∧ (c ≠ Quotes → F.quotes (ui w') = F.quotes (ui w))
  ∧ (c ≠ Books → F.books (ui w') = F.books (ui w)).
Proof.
  take_apart w.
  destruct c, r; unfold_runtime; split_cases;
    split_and!; try reflexivity; intros; congruence.
Qed.

End Delivery.

(** ** White space *)

Section Trim.

Lemma falsy_trimEnd (s : string) : falsy (trimEnd s) = whitespace_only s.
Proof.
  destruct s as [|a s]; [reflexivity|].
  change (trimEnd (String a s))
    with (if whitespace_only (String a s) then EmptyString
          else String a (trimEnd s)).
  by destruct (whitespace_only (String a s)).
Qed.

Lemma trimStart_cons (a : ascii) (s1 : string) :
  trimStart (String a s1)
  = if one_byte_space a then trimStart s1
    else
      match s1 with
      | String b s2 =>
          if two_byte_space a b then trimStart s2
          else
            match s2 with
            | String c s3 =>
                if three_byte_space a b c then trimStart s3
                else String a s1
            | EmptyString => String a s1
            end
      | EmptyString => String a s1
      end.
Proof. by destruct s1 as [|b [|c s3]]. Qed.

Lemma whitespace_only_cons (a : ascii) (s1 : string) :
  whitespace_only (String a s1)
  = if one_byte_space a then whitespace_only s1
    else
      match s1 with
      | String b s2 =>
          if two_byte_space a b then whitespace_only s2
          else
            match s2 with
            | String c s3 => three_byte_space a b c && whitespace_only s3
            | EmptyString => false
            end
      | EmptyString => false
      end.
Proof. reflexivity. Qed.

Lemma whitespace_only_trimStart_upto (n : nat) (s : string) :
  (String.length s ≤ n)%nat → whitespace_only (trimStart s) = whitespace_only s.
Proof.
  revert s. induction n as [|n IH]; intros s Hn.
  { destruct s; [reflexivity | cbn in Hn; lia]. }
  destruct s as [|a s1]; [reflexivity|].
  rewrite trimStart_cons, (whitespace_only_cons a s1).
  cbn [String.length] in Hn.
  destruct (one_byte_space a) eqn:Ha; [apply IH; lia|].
  destruct s1 as [|b s2].
  { by rewrite whitespace_only_cons, Ha. }
  cbn [String.length] in Hn.
  destruct (two_byte_space a b) eqn:Hab; [apply IH; lia|].
  destruct s2 as [|c s3].
  { by rewrite whitespace_only_cons, Ha, Hab. }
  cbn [String.length] in Hn.
  destruct (three_byte_space a b c) eqn:Habc.
  - cbn [andb]. apply IH. lia.
  - by rewrite whitespace_only_cons, Ha, Hab, Habc.
Qed.

(** [!s.trim()] holds exactly for the texts made of white space only. *)
Lemma falsy_trim (s : string) : falsy (trim s) = whitespace_only s.
Proof.
  unfold trim. rewrite falsy_trimEnd.
  by apply (whitespace_only_trimStart_upto (String.length s)).
Qed.

(** [trim] on text with a no-break space (U+00A0) in front and a line
    separator (U+2028) behind; a text of U+FEFF and U+3000 is blank; the
    letter U+00E0, whose encoding ends in the byte [A0], is not white
    space. *)
Example trim_beyond_ascii :
  let byte := ascii_of_nat in
  trim (String (byte 194) (String (byte 160)
          ("Dune " +:+ String (byte 226) (String (byte 128)
                                 (String (byte 168) EmptyString)))))
  = "Dune"
  ∧ whitespace_only (String (byte 239) (String (byte 187) (String (byte 191)
                       (String (byte 227) (String (byte 128)
                          (String (byte 128) EmptyString))))))
    = true
  ∧ trim (String (byte 195) (String (byte 160) EmptyString))
    = String (byte 195) (String (byte 160) EmptyString).
Proof. vm_compute. split_and!; reflexivity. Qed.

End Trim.

(** ** Mutations and the refreshes they trigger *)

Section Mutations.
Context `{Platform}.

(** In [part_000] a mutation whose write succeeded sends exactly the fetch
    requests of [U.refreshes], in that order, and they are the only new
    requests in flight. *)
Lemma U_success_refreshes (m : mutation) (d : json) (w : World U.State) :
  let w' := run (U.mutation_resume m (Fulfilled d)) w in
  sent w' = sent w ++ map U.fetch_request (U.refreshes m)
  ∧ inflight w' = inflight w ++ map AwaitFetch (U.refreshes m)
  ∧ U.books (ui w') = U.books (ui w)
  ∧ U.quotes (ui w') = U.quotes (ui w)
  ∧ U.booksWithQuotes (ui w') = U.booksWithQuotes (ui w)
  ∧ localStorage w' = localStorage w
  ∧ unhandled w' = unhandled w.
Proof.
  take_apart w.
  destruct m; unfold_runtime; rewrite <- ?app_assoc; split_and!; reflexivity.
Qed.

(** The same for [src/frontend/src/App.js], with the calls of that file:
    there [addBook] and [updateBook] call [fetchBooks] only. *)
Lemma F_success_refreshes (m : mutation) (d : json) (w : World F.State) :
  let w' := run (F.mutation_resume m (Fulfilled d)) w in
  sent w' = sent w ++ map U.fetch_request (F.refreshes m)
  ∧ inflight w' = inflight w ++ map AwaitFetch (F.refreshes m)
  ∧ F.books (ui w') = F.books (ui w)
  ∧ F.quotes (ui w') = F.quotes (ui w)
  ∧ localStorage w' = localStorage w.
Proof.
  take_apart w.
  destruct m; unfold_runtime; rewrite <- ?app_assoc; split_and!; reflexivity.
Qed.

(** The [catch] block of a mutation in [part_000]: it logs and raises the
    notification of the operation, and nothing else. *)
Lemma U_failure_notifies (m : mutation) (e : exn) (w : World U.State) :
  let w' := run (U.mutation_resume m (Rejected e)) w in
  sent w' = sent w
  ∧ inflight w' = inflight w
  ∧ ui w' = ui w
  ∧ renders w' = renders w
  ∧ localStorage w' = localStorage w
  ∧ toasts w' = toasts w ++ [toast_error (U.failure_message m)]
  ∧ console w' = console w ++ [e]
  ∧ unhandled w' = unhandled w.
Proof. take_apart w. destruct m; unfold_runtime; split_and!; reflexivity. Qed.

(** The request sent last is the last one in flight: when it settles, the
    function that sent it resumes in the world it left, the request being no
    longer in flight. *)
Lemma U_deliver_sent (w : World U.State) (rq : request) (k : waiter)
    (r : response) :
  U.deliver (length (inflight w)) r (run (axios rq k) w)
  = run (U.resume k r) (set_inflight (inflight w) (run (axios rq k) w)).
Proof.
  rewrite (U_deliver_lookup _ _ k).
  - change (inflight (run (axios rq k) w)) with (inflight w ++ [k]).
    by rewrite delete_middle, app_nil_r.
  - change (inflight (run (axios rq k) w)) with (inflight w ++ [k]).
    by apply list_lookup_middle.
Qed.

Lemma F_deliver_sent (w : World F.State) (rq : request) (k : waiter)
    (r : response) :
  F.deliver (length (inflight w)) r (run (axios rq k) w)
  = run (F.resume k r) (set_inflight (inflight w) (run (axios rq k) w)).
Proof.
  rewrite (F_deliver_lookup _ _ k).
  - change (inflight (run (axios rq k) w)) with (inflight w ++ [k]).
    by rewrite delete_middle, app_nil_r.
  - change (inflight (run (axios rq k) w)) with (inflight w ++ [k]).
    by apply list_lookup_middle.
Qed.

(** A write of [part_000] from the call to the response: the call changes
    nothing but the requests; a success sends the refreshes of the mutation
    after the write and leaves the collections and the cache alone; a failure
    sends nothing more and raises the notification. *)
Lemma U_write_settles (w : World U.State) (rq : request) (m : mutation)
    (r : response) :
  let w1 := run (axios rq (AwaitMutation m)) w in
  let w2 := U.deliver (length (inflight w)) r w1 in
  (ui w1 = ui w ∧ localStorage w1 = localStorage w ∧ toasts w1 = toasts w
   ∧ sent w1 = sent w ++ [rq]
   ∧ inflight w1 = inflight w ++ [AwaitMutation m])
  ∧ match r with
    | Fulfilled d =>
        sent w2 = sent w ++ rq :: map U.fetch_request (U.refreshes m)
        ∧ inflight w2 = inflight w ++ map AwaitFetch (U.refreshes m)
        ∧ U.books (ui w2) = U.books (ui w)
        ∧ U.quotes (ui w2) = U.quotes (ui w)
        ∧ U.booksWithQuotes (ui w2) = U.booksWithQuotes (ui w)
        ∧ localStorage w2 = localStorage w
        ∧ unhandled w2 = unhandled w
    | Rejected e =>
        sent w2 = sent w ++ [rq]
        ∧ inflight w2 = inflight w
        ∧ ui w2 = ui w
        ∧ renders w2 = renders w
        ∧ localStorage w2 = localStorage w
        ∧ toasts w2 = toasts w ++ [toast_error (U.failure_message m)]
        ∧ console w2 = console w ++ [e]
        ∧ unhandled w2 = unhandled w
    end.
Proof.
  cbv zeta. split; [by split_and!|].
  rewrite U_deliver_sent.
  change (U.resume (AwaitMutation m)) with (U.mutation_resume m).
  set (w0 := set_inflight (inflight w) (run (axios rq (AwaitMutation m)) w)).
  destruct r as [d|e].
  - destruct (U_success_refreshes m d w0)
      as (Hs & Hi & Hb & Hq & Hbw & Hl & Hu).
    split_and!; try assumption.
    rewrite Hs. change (sent w0) with (sent w ++ [rq]).
    by rewrite <- app_assoc.
  - destruct (U_failure_notifies m e w0)
      as (Hs & Hi & Hui & Hr & Hl & Ht & Hc & Hu).
    split_and!; assumption.
Qed.

(** The same for the successful writes of [App.js]. *)
Lemma F_write_settles (v : World F.State) (rq : request) (m : mutation)
    (d : json) :
  let v1 := run (axios rq (AwaitMutation m)) v in
  let v2 := F.deliver (length (inflight v)) (Fulfilled d) v1 in
  (ui v1 = ui v ∧ localStorage v1 = localStorage v)
  ∧ sent v2 = sent v ++ rq :: map U.fetch_request (F.refreshes m)
  ∧ inflight v2 = inflight v ++ map AwaitFetch (F.refreshes m)
  ∧ F.books (ui v2) = F.books (ui v)
  ∧ F.quotes (ui v2) = F.quotes (ui v)
  ∧ localStorage v2 = localStorage v.
Proof.
  cbv zeta. split; [by split|].
  rewrite F_deliver_sent.
  change (F.resume (AwaitMutation m)) with (F.mutation_resume m).
  set (v0 := set_inflight (inflight v) (run (axios rq (AwaitMutation m)) v)).
  destruct (F_success_refreshes m d v0) as (Hs & Hi & Hb & Hq & Hl).
  split_and!; try assumption.
  rewrite Hs. change (sent v0) with (sent v ++ [rq]).
  by rewrite <- app_assoc.
Qed.

(** *** What each function of [part_000] sends when it is called *)

Lemma U_addBook_sends (w : World U.State) :
  whitespace_only (bf_title (U.bookForm (ui w))) = false →
  run U.addBook w
  = run (axios (mkRequest POST (API +:+ "/books")
                  (Some (BookBody (U.bookForm (ui w)))))
           (AwaitMutation AddBook)) w.
Proof.
  intros Hb. rewrite <- falsy_trim in Hb. take_apart w.
  destruct bookForm as [ftitle fstatus frating].
  cbn [ui U.bookForm bf_title] in Hb. unfold_runtime. by rewrite Hb.
Qed.

Lemma U_submitEditBook_sends (w : World U.State) :
  whitespace_only (eb_title (U.editBookForm (ui w))) = false →
  run U.submitEditBook w
  = run (axios (mkRequest PUT
                  (API +:+ "/books/"
                     +:+ encodeURIComponent
                           (eb_originalTitle (U.editBookForm (ui w))))
                  (Some (UpdatesBody
                           (mkBookUpdates
                              (Some (eb_title (U.editBookForm (ui w))))
                              (Some (eb_status (U.editBookForm (ui w))))
                              (Some (eb_rating (U.editBookForm (ui w))))))))
           (AwaitMutation UpdateBook)) w.
Proof.
  intros Hb. rewrite <- falsy_trim in Hb. take_apart w.
  destruct editBookForm as [ftitle fstatus frating foriginal].
  cbn [ui U.editBookForm eb_title] in Hb. unfold_runtime. by rewrite Hb.
Qed.

Lemma U_addQuote_sends (w : World U.State) :
  whitespace_only (U.qf_text (U.quoteForm (ui w))) = false →
  run U.addQuote w
  = run (axios (mkRequest POST (API +:+ "/quotes")
                  (Some (QuoteBody (U.selectedBook (ui w))
                           (U.qf_text (U.quoteForm (ui w)))
                           (U.qf_user_id (U.quoteForm (ui w)))
                           (U.qf_discussion (U.quoteForm (ui w))))))
           (AwaitMutation AddQuote)) w.
Proof.
  intros Hb. rewrite <- falsy_trim in Hb. take_apart w.
  destruct quoteForm as [ftext fdiscussion fuser].
  cbn [ui U.quoteForm U.qf_text] in Hb. unfold_runtime. by rewrite Hb.
Qed.

(** What a settled re-fetch of one collection leaves of the others, said of
    the world before the mutation. *)
Lemma U_refresh_frame (w w2 : World U.State) (c : collection) (n : nat)
    (r : response) :
  inflight w2 !! n = Some (AwaitFetch c) →
  (∀ c', c' ≠ c → U.cell c' (ui w2) = U.cell c' (ui w)) →
  localStorage w2 = localStorage w →
  let w3 := U.deliver n r w2 in
  sent w3 = sent w2
  ∧ (∀ c', c' ≠ c → U.cell c' (ui w3) = U.cell c' (ui w))
  ∧ (∀ c', c' ≠ c →
       localStorage w3 !! U.cache_key c' = localStorage w !! U.cache_key c').
Proof.
  intros Hn Hcells Hl. cbv zeta. rewrite (U_deliver_lookup _ _ _ _ Hn).
  change (U.resume (AwaitFetch c)) with (U.fetch_resume c).
  destruct (U_fetch_frame c r (set_inflight (delete n (inflight w2)) w2))
    as (Hs & _ & Hc & Hk).
  split_and!.
  - exact Hs.
  - intros c' Hne. rewrite (Hc c' Hne). by apply Hcells.
  - intros c' Hne. rewrite (Hk c' Hne).
    change (localStorage (set_inflight (delete n (inflight w2)) w2))
      with (localStorage w2).
    by rewrite Hl.
Qed.

(** C1. Delete Book, from the call to the settled refresh, in both
    revisions.  The call sends the [DELETE] and changes nothing else; when
    the request has succeeded the only request sent after it is [GET /books];
    the quotes and the books-with-quotes collections and the whole cache are
    as they were before the call, and the two collections and their cache
    entries still are once that re-fetch has settled, whatever its outcome.
    A deletion the user does not confirm does nothing at all. *)
Theorem delete_book_refreshes_books_only
    (w : World U.State) (v : World F.State) (title : string) (d : json) :
  let w1 := run (U.deleteBook title true) w in
  let w2 := U.deliver (length (inflight w)) (Fulfilled d) w1 in
  let v1 := run (F.deleteBook title true) v in
  let v2 := F.deliver (length (inflight v)) (Fulfilled d) v1 in
  (ui w1 = ui w ∧ localStorage w1 = localStorage w
   ∧ sent w2 = sent w ++
       [mkRequest DELETE (API +:+ "/books/" +:+ encodeURIComponent title) None;
        mkRequest GET (API +:+ "/books") None]
   ∧ inflight w2 = inflight w ++ [AwaitFetch Books]
   ∧ U.quotes (ui w2) = U.quotes (ui w)
   ∧ U.booksWithQuotes (ui w2) = U.booksWithQuotes (ui w)
   ∧ localStorage w2 = localStorage w
   ∧ ∀ n r, inflight w2 !! n = Some (AwaitFetch Books) →
       let w3 := U.deliver n r w2 in
       sent w3 = sent w2
       ∧ U.quotes (ui w3) = U.quotes (ui w)
       ∧ U.booksWithQuotes (ui w3) = U.booksWithQuotes (ui w)
       ∧ localStorage w3 !! "quotes" = localStorage w !! "quotes"
       ∧ localStorage w3 !! "booksWithQuotes"
         = localStorage w !! "booksWithQuotes")
  ∧ (ui v1 = ui v ∧ localStorage v1 = localStorage v
     ∧ sent v2 = sent v ++
         [mkRequest DELETE (API +:+ "/books/" +:+ encodeURIComponent title)
            None;
          mkRequest GET (API +:+ "/books") None]
     ∧ inflight v2 = inflight v ++ [AwaitFetch Books]
     ∧ F.quotes (ui v2) = F.quotes (ui v)
     ∧ localStorage v2 = localStorage v
     ∧ ∀ n r, inflight v2 !! n = Some (AwaitFetch Books) →
         let v3 := F.deliver n r v2 in
         sent v3 = sent v2 ∧ F.quotes (ui v3) = F.quotes (ui v))
  ∧ run (U.deleteBook title false) w = w
  ∧ run (F.deleteBook title false) v = v.
Proof.
  cbv zeta. split; [|split; [|split; reflexivity]].
  - change (run (U.deleteBook title true) w)
      with (run (axios (mkRequest DELETE
                          (API +:+ "/books/" +:+ encodeURIComponent title) None)
                   (AwaitMutation DeleteBook)) w).
    destruct (U_write_settles w
                (mkRequest DELETE
                   (API +:+ "/books/" +:+ encodeURIComponent title) None)
                DeleteBook (Fulfilled d))
      as [(Hu1 & Hl1 & _) (Hs & Hi & Hb & Hq & Hbw & Hl & _)].
    split_and!; try assumption.
    intros n r Hn.
    destruct (U_refresh_frame w _ Books n r Hn) as (Hs3 & Hc3 & Hk3).
    { intros [] Hne; [done | exact Hq | exact Hbw]. }
    { exact Hl. }
    split_and!.
    + exact Hs3.
    + exact (Hc3 Quotes ltac:(discriminate)).
    + exact (Hc3 BooksWithQuotes ltac:(discriminate)).
    + exact (Hk3 Quotes ltac:(discriminate)).
    + exact (Hk3 BooksWithQuotes ltac:(discriminate)).
  - change (run (F.deleteBook title true) v)
      with (run (axios (mkRequest DELETE
                          (API +:+ "/books/" +:+ encodeURIComponent title) None)
                   (AwaitMutation DeleteBook)) v).
    destruct (F_write_settles v
                (mkRequest DELETE
                   (API +:+ "/books/" +:+ encodeURIComponent title) None)
                DeleteBook d)
      as [(Hu1 & Hl1) (Hs & Hi & Hb & Hq & Hl)].
    split_and!; try assumption.
    intros n r Hn. cbv zeta. rewrite (F_deliver_lookup _ _ _ _ Hn).
    change (F.resume (AwaitFetch Books)) with (F.fetch_resume Books).
    match goal with
    | |- context [run (F.fetch_resume Books r) ?x] =>
        destruct (F_fetch_frame Books r x) as (Hs' & _ & Hc & _)
    end.
    split; [exact Hs'|]. exact (eq_trans (Hc ltac:(discriminate)) Hq).
Qed.

(** C4. Update Quote discussion in [part_000], from the call to the settled
    refresh.  The call sends the [PUT] and changes nothing else; when the
    request has succeeded the only request sent after it is [GET /quotes];
    the books and the books-with-quotes collections and the whole cache are
    as they were before the call, and the two collections and their cache
    entries still are once that re-fetch has settled, whatever its
    outcome. *)
Theorem update_discussion_refreshes_quotes_only
    (w : World U.State) (bookTitle quoteText discussion : string) (d : json) :
  let w1 := run (U.updateQuoteDiscussion bookTitle quoteText discussion) w in
  let w2 := U.deliver (length (inflight w)) (Fulfilled d) w1 in
  ui w1 = ui w ∧ localStorage w1 = localStorage w
  ∧ sent w2 = sent w ++
      [mkRequest PUT
         (API +:+ "/quotes/" +:+ encodeURIComponent bookTitle +:+ "/"
            +:+ encodeURIComponent quoteText)
         (Some (DiscussionBody discussion));
       mkRequest GET (API +:+ "/quotes") None]
  ∧ inflight w2 = inflight w ++ [AwaitFetch Quotes]
  ∧ U.books (ui w2) = U.books (ui w)
  ∧ U.booksWithQuotes (ui w2) = U.booksWithQuotes (ui w)
  ∧ localStorage w2 = localStorage w
  ∧ ∀ n r, inflight w2 !! n = Some (AwaitFetch Quotes) →
      let w3 := U.deliver n r w2 in
      sent w3 = sent w2
      ∧ U.books (ui w3) = U.books (ui w)
      ∧ U.booksWithQuotes (ui w3) = U.booksWithQuotes (ui w)
      ∧ localStorage w3 !! "books" = localStorage w !! "books"
      ∧ localStorage w3 !! "booksWithQuotes"
        = localStorage w !! "booksWithQuotes".
Proof.
  cbv zeta.
  set (rq := mkRequest PUT
               (API +:+ "/quotes/" +:+ encodeURIComponent bookTitle +:+ "/"
                  +:+ encodeURIComponent quoteText)
               (Some (DiscussionBody discussion))).
  change (run (U.updateQuoteDiscussion bookTitle quoteText discussion) w)
    with (run (axios rq (AwaitMutation UpdateQuoteDiscussion)) w).
  destruct (U_write_settles w rq UpdateQuoteDiscussion (Fulfilled d))
    as [(Hu1 & Hl1 & _) (Hs & Hi & Hb & Hq & Hbw & Hl & _)].
  split_and!; try assumption.
  intros n r Hn.
  destruct (U_refresh_frame w _ Quotes n r Hn) as (Hs3 & Hc3 & Hk3).
  { intros [] Hne; [exact Hb | done | exact Hbw]. }
  { exact Hl. }
  split_and!.
  - exact Hs3.
  - exact (Hc3 Books ltac:(discriminate)).
  - exact (Hc3 BooksWithQuotes ltac:(discriminate)).
  - exact (Hk3 Books ltac:(discriminate)).
  - exact (Hk3 BooksWithQuotes ltac:(discriminate)).
Qed.

(** C3. The refreshes of each mutation of [part_000], from the call to the
    response that reports success: after its write request the mutation
    sends the re-fetches of the table, in the order of the table, and no
    other request.  Add Book and Update Book (from a row or from the edit
    form) re-fetch the books and the books-with-quotes; Add Quote and Delete
    Quote the quotes and the books-with-quotes; Delete Book the books only;
    Update Quote discussion the quotes only. *)
Theorem mutations_refresh_per_table
    (w : World U.State) (d : json) (title : string) (updates : BookUpdates)
    (bookTitle quoteText discussion : string) :
  let succeeds call :=
    U.deliver (length (inflight w)) (Fulfilled d) (run call w) in
  let get url := mkRequest GET (API +:+ url) None in
  let form := U.bookForm (ui w) in
  let edit := U.editBookForm (ui w) in
  let quote := U.quoteForm (ui w) in
  (whitespace_only (bf_title form) = false →
   sent (succeeds U.addBook) = sent w ++
     [mkRequest POST (API +:+ "/books") (Some (BookBody form));
      get "/books"; get "/books-with-quotes"]
   ∧ inflight (succeeds U.addBook) = inflight w ++
       [AwaitFetch Books; AwaitFetch BooksWithQuotes])
  ∧ (sent (succeeds (U.updateBook title updates)) = sent w ++
       [mkRequest PUT (API +:+ "/books/" +:+ encodeURIComponent title)
          (Some (UpdatesBody updates));
        get "/books"; get "/books-with-quotes"]
     ∧ inflight (succeeds (U.updateBook title updates)) = inflight w ++
         [AwaitFetch Books; AwaitFetch BooksWithQuotes])
  ∧ (whitespace_only (eb_title edit) = false →
     sent (succeeds U.submitEditBook) = sent w ++
       [mkRequest PUT
          (API +:+ "/books/" +:+ encodeURIComponent (eb_originalTitle edit))
          (Some (UpdatesBody
                   (mkBookUpdates (Some (eb_title edit)) (Some (eb_status edit))
                      (Some (eb_rating edit)))));
        get "/books"; get "/books-with-quotes"]
     ∧ inflight (succeeds U.submitEditBook) = inflight w ++
         [AwaitFetch Books; AwaitFetch BooksWithQuotes])
  ∧ (sent (succeeds (U.deleteBook title true)) = sent w ++
       [mkRequest DELETE (API +:+ "/books/" +:+ encodeURIComponent title) None;
        get "/books"]
     ∧ inflight (succeeds (U.deleteBook title true)) = inflight w ++
         [AwaitFetch Books])
  ∧ (whitespace_only (U.qf_text quote) = false →
     sent (succeeds U.addQuote) = sent w ++
       [mkRequest POST (API +:+ "/quotes")
          (Some (QuoteBody (U.selectedBook (ui w)) (U.qf_text quote)
                   (U.qf_user_id quote) (U.qf_discussion quote)));
        get "/quotes"; get "/books-with-quotes"]
     ∧ inflight (succeeds U.addQuote) = inflight w ++
         [AwaitFetch Quotes; AwaitFetch BooksWithQuotes])
  ∧ (sent (succeeds (U.updateQuoteDiscussion bookTitle quoteText discussion))
     = sent w ++
       [mkRequest PUT
          (API +:+ "/quotes/" +:+ encodeURIComponent bookTitle +:+ "/"
             +:+ encodeURIComponent quoteText)
          (Some (DiscussionBody discussion));
        get "/quotes"]
     ∧ inflight
         (succeeds (U.updateQuoteDiscussion bookTitle quoteText discussion))
       = inflight w ++ [AwaitFetch Quotes])
  ∧ (sent (succeeds (U.deleteQuote bookTitle quoteText true)) = sent w ++
       [mkRequest DELETE
          (API +:+ "/quotes/" +:+ encodeURIComponent bookTitle +:+ "/"
             +:+ encodeURIComponent quoteText) None;
        get "/quotes"; get "/books-with-quotes"]
     ∧ inflight (succeeds (U.deleteQuote bookTitle quoteText true))
       = inflight w ++ [AwaitFetch Quotes; AwaitFetch BooksWithQuotes]).
Proof.
  cbv zeta.
  assert (Hround : ∀ rq m,
            let w2 := U.deliver (length (inflight w)) (Fulfilled d)
                        (run (axios rq (AwaitMutation m)) w) in
            sent w2 = sent w ++ rq :: map U.fetch_request (U.refreshes m)
            ∧ inflight w2 = inflight w ++ map AwaitFetch (U.refreshes m)).
  { intros rq m.
    destruct (U_write_settles w rq m (Fulfilled d)) as [_ (Hs & Hi & _)].
    by split. }
  split; [intros Hb; rewrite (U_addBook_sends w Hb); exact (Hround _ AddBook)|].
  split; [exact (Hround _ UpdateBook)|].
  split; [intros Hb; rewrite (U_submitEditBook_sends w Hb);
          exact (Hround _ UpdateBook)|].
  split; [exact (Hround _ DeleteBook)|].
  split; [intros Hb; rewrite (U_addQuote_sends w Hb);
          exact (Hround _ AddQuote)|].
  split; [exact (Hround _ UpdateQuoteDiscussion)|].
  exact (Hround _ DeleteQuote).
Qed.

(** C7. A mutation of [part_000] whose write request fails, from the call to
    the response that reports the failure: the write is the only request
    sent (no refresh, no retry) and nothing stays in flight; the whole React
    state, so each of the three collections, and the cache are as they were
    before the call; one error notification naming the operation is raised;
    the failure is logged and not rethrown. *)
Theorem failed_mutation_changes_nothing
    (w : World U.State) (e : exn) (title : string) (updates : BookUpdates)
    (bookTitle quoteText discussion : string) :
  let fails call := U.deliver (length (inflight w)) (Rejected e) (run call w) in
  let nothing_but w' rq message :=
    sent w' = sent w ++ [rq]
    ∧ inflight w' = inflight w
    ∧ ui w' = ui w
    ∧ localStorage w' = localStorage w
    ∧ toasts w' = toasts w ++ [toast_error message]
    ∧ console w' = console w ++ [e]
    ∧ unhandled w' = unhandled w in
  let form := U.bookForm (ui w) in
  let edit := U.editBookForm (ui w) in
  let quote := U.quoteForm (ui w) in
  (whitespace_only (bf_title form) = false →
   nothing_but (fails U.addBook)
     (mkRequest POST (API +:+ "/books") (Some (BookBody form)))
     "Failed to add book")
  ∧ nothing_but (fails (U.updateBook title updates))
      (mkRequest PUT (API +:+ "/books/" +:+ encodeURIComponent title)
         (Some (UpdatesBody updates)))
      "Failed to update book"
  ∧ (whitespace_only (eb_title edit) = false →
     nothing_but (fails U.submitEditBook)
       (mkRequest PUT
          (API +:+ "/books/" +:+ encodeURIComponent (eb_originalTitle edit))
          (Some (UpdatesBody
                   (mkBookUpdates (Some (eb_title edit)) (Some (eb_status edit))
                      (Some (eb_rating edit))))))
       "Failed to update book")
  ∧ nothing_but (fails (U.deleteBook title true))
      (mkRequest DELETE (API +:+ "/books/" +:+ encodeURIComponent title) None)
      "Failed to delete book"
  ∧ (whitespace_only (U.qf_text quote) = false →
     nothing_but (fails U.addQuote)
       (mkRequest POST (API +:+ "/quotes")
          (Some (QuoteBody (U.selectedBook (ui w)) (U.qf_text quote)
                   (U.qf_user_id quote) (U.qf_discussion quote))))
       "Failed to add quote")
  ∧ nothing_but (fails (U.updateQuoteDiscussion bookTitle quoteText discussion))
      (mkRequest PUT
         (API +:+ "/quotes/" +:+ encodeURIComponent bookTitle +:+ "/"
            +:+ encodeURIComponent quoteText)
         (Some (DiscussionBody discussion)))
      "Failed to update discussion"
  ∧ nothing_but (fails (U.deleteQuote bookTitle quoteText true))
      (mkRequest DELETE
         (API +:+ "/quotes/" +:+ encodeURIComponent bookTitle +:+ "/"
            +:+ encodeURIComponent quoteText) None)
      "Failed to delete quote".
Proof.
  cbv zeta.
  assert (Hround : ∀ rq m,
            let w2 := U.deliver (length (inflight w)) (Rejected e)
                        (run (axios rq (AwaitMutation m)) w) in
            sent w2 = sent w ++ [rq]
            ∧ inflight w2 = inflight w
            ∧ ui w2 = ui w
            ∧ localStorage w2 = localStorage w
            ∧ toasts w2 = toasts w ++ [toast_error (U.failure_message m)]
            ∧ console w2 = console w ++ [e]
            ∧ unhandled w2 = unhandled w).
  { intros rq m.
    destruct (U_write_settles w rq m (Rejected e))
      as [_ (Hs & Hi & Hui & _ & Hl & Ht & Hc & Hu)].
    by split_and!. }
  split; [intros Hb; rewrite (U_addBook_sends w Hb); exact (Hround _ AddBook)|].
  split; [exact (Hround _ UpdateBook)|].
  split; [intros Hb; rewrite (U_submitEditBook_sends w Hb);
          exact (Hround _ UpdateBook)|].
  split; [exact (Hround _ DeleteBook)|].
  split; [intros Hb; rewrite (U_addQuote_sends w Hb);
          exact (Hround _ AddQuote)|].
  split; [exact (Hround _ UpdateQuoteDiscussion)|].
  exact (Hround _ DeleteQuote).
Qed.

End Mutations.

Section MutationWitnesses.
Import Fixture Scenario.

Lemma delete_book_refreshes_books_only_witness :
  U.quotes (ui (U.deliver 0 (Fulfilled VNull)
                  (run (U.deleteBook "Dune" true) loaded)))
  = quotes_payload
  ∧ U.booksWithQuotes (ui (U.deliver 0 (Fulfilled VNull)
                             (run (U.deleteBook "Dune" true) loaded)))
    = titles_payload
  ∧ F.quotes (ui (F.deliver 0 (Fulfilled VNull)
                    (run (F.deleteBook "Dune" true) F_loaded)))
    = quotes_payload.
Proof.
  destruct (delete_book_refreshes_books_only loaded F_loaded "Dune" VNull)
    as [(_ & _ & _ & _ & Hq & Hb & _) [(_ & _ & _ & _ & Hv & _) _]].
  split_and!; [exact Hq | exact Hb | exact Hv].
Defined.

Lemma update_discussion_refreshes_quotes_only_witness :
  U.books (ui (U.deliver 0 (Fulfilled VNull)
                 (run (U.updateQuoteDiscussion "Dune" "Fear is the mind-killer"
                         "Litany") loaded)))
  = books_payload
  ∧ U.booksWithQuotes
      (ui (U.deliver 0 (Fulfilled VNull)
             (run (U.updateQuoteDiscussion "Dune" "Fear is the mind-killer"
                     "Litany") loaded)))
    = titles_payload.
Proof.
  destruct (update_discussion_refreshes_quotes_only loaded "Dune"
              "Fear is the mind-killer" "Litany" VNull)
    as (_ & _ & _ & _ & Hb & Hbw & _).
  split; [exact Hb | exact Hbw].
Defined.

Lemma mutations_refresh_per_table_witness :
  inflight (U.deliver 0 (Fulfilled VNull) (run U.addBook filled))
  = [AwaitFetch Books; AwaitFetch BooksWithQuotes]
  ∧ inflight (U.deliver 0 (Fulfilled VNull) (run U.submitEditBook filled))
    = [AwaitFetch Books; AwaitFetch BooksWithQuotes]
  ∧ inflight (U.deliver 0 (Fulfilled VNull) (run U.addQuote filled))
    = [AwaitFetch Quotes; AwaitFetch BooksWithQuotes].
Proof.
  destruct (mutations_refresh_per_table filled VNull "Dune"
              (mkBookUpdates None (Some "Read") None) "Dune"
              "Fear is the mind-killer" "Litany")
    as (Hadd & _ & Hedit & _ & Hquote & _).
  split_and!.
  - exact (proj2 (Hadd eq_refl)).
  - exact (proj2 (Hedit eq_refl)).
  - exact (proj2 (Hquote eq_refl)).
Defined.

Lemma failed_mutation_changes_nothing_witness :
  ui (U.deliver 0 (Rejected offline) (run U.addBook filled)) = ui filled
  ∧ ui (U.deliver 0 (Rejected offline) (run U.submitEditBook filled))
    = ui filled
  ∧ ui (U.deliver 0 (Rejected offline) (run U.addQuote filled)) = ui filled
  ∧ toasts (U.deliver 0 (Rejected offline) (run U.addQuote filled))
    = [toast_error "Failed to add quote"].
Proof.
  destruct (failed_mutation_changes_nothing filled offline "Dune"
              (mkBookUpdates None (Some "Read") None) "Dune"
              "Fear is the mind-killer" "Litany")
    as (Hadd & _ & Hedit & _ & Hquote & _).
  destruct (Hadd eq_refl) as (_ & _ & Ha & _).
  destruct (Hedit eq_refl) as (_ & _ & He & _).
  destruct (Hquote eq_refl) as (_ & _ & Hq & _ & Ht & _).
  split_and!; [exact Ha | exact He | exact Hq | exact Ht].
Defined.

End MutationWitnesses.

(** ** Validation of the quote form *)

Section AddQuote.
Context `{Platform}.

(** C10. In both revisions Add Quote checks the quote text and nothing else:
    a text that is empty or white space only raises "Quote text is required"
    and sends nothing; any other text sends [POST /quotes] with [book_title]
    set to [selectedBook], whatever it is, so with [selectedBook] equal to
    [null] the request goes out with [book_title] equal to [null].  In
    [part_000] the controls lead there: when the list of books with quotes
    that the server sent holds [null], the quote card of that element is
    drawn; clicking it opens the dialog with no book selected, and typing a
    text and clicking Add Quote sends the request with [book_title] equal to
    [null]. *)
Theorem add_quote_checks_text_only
    (w : World U.State) (v : World F.State) (store : gmap string string)
    (booksRes quotesRes bwqRes : json) (text : string) :
  let w' := run U.addQuote w in
  let v' := run F.addQuote v in
  let qw := U.quoteForm (ui w) in
  let qv := F.quoteForm (ui v) in
  (if whitespace_only (U.qf_text qw)
   then sent w' = sent w ∧ inflight w' = inflight w ∧ ui w' = ui w
        ∧ toasts w' = toasts w ++ [toast_error "Quote text is required"]
   else sent w' = sent w ++
          [mkRequest POST (API +:+ "/quotes")
             (Some (QuoteBody (U.selectedBook (ui w)) (U.qf_text qw)
                      (U.qf_user_id qw) (U.qf_discussion qw)))]
        ∧ inflight w' = inflight w ++ [AwaitMutation AddQuote]
        ∧ ui w' = ui w ∧ toasts w' = toasts w)
  ∧ (if whitespace_only (F.qf_text qv)
     then sent v' = sent v ∧ inflight v' = inflight v ∧ ui v' = ui v
          ∧ toasts v' = toasts v ++ [toast_error "Quote text is required"]
     else sent v' = sent v ++
            [mkRequest POST (API +:+ "/quotes")
               (Some (QuoteBody (F.selectedBook (ui v)) (F.qf_text qv)
                        (F.currentUser (ui v)) (F.qf_discussion qv)))]
          ∧ inflight v' = inflight v ++ [AwaitMutation AddQuote]
          ∧ ui v' = ui v ∧ toasts v' = toasts v)
  ∧ (U.selectedBook (ui w) = Null → whitespace_only (U.qf_text qw) = false →
     sent w' = sent w ++
       [mkRequest POST (API +:+ "/quotes")
          (Some (QuoteBody Null (U.qf_text qw) (U.qf_user_id qw)
                   (U.qf_discussion qw)))])
  ∧ (F.selectedBook (ui v) = Null → whitespace_only (F.qf_text qv) = false →
     sent v' = sent v ++
       [mkRequest POST (API +:+ "/quotes")
          (Some (QuoteBody Null (F.qf_text qv) (F.currentUser (ui v))
                   (F.qf_discussion qv)))])
  ∧ (Null ∈ entries bwqRes → whitespace_only text = false →
     let shown := I.session [I.Network 0 (Fulfilled booksRes);
                             I.Network 0 (Fulfilled quotesRes);
                             I.Network 0 (Fulfilled bwqRes)]
                    (U.mounted store) in
     let picked := I.react shown (I.User (I.Card_onClick Null)) in
     let typed := I.react picked (I.User (I.QuoteText_onChange text)) in
     let submitted := I.react typed (I.User I.SubmitQuote_onClick) in
     I.card_rendered (ui shown) Null
     ∧ U.selectedBook (ui picked) = Null
     ∧ I.available (ui picked) (I.QuoteText_onChange text) = true
     ∧ I.available (ui typed) I.SubmitQuote_onClick = true
     ∧ sent submitted = sent shown ++
         [mkRequest POST (API +:+ "/quotes")
            (Some (QuoteBody Null text 1 ""))]).
Proof.
  cbv zeta. split_and!.
  - take_apart w. destruct quoteForm as [wtext wdisc wuser].
    cbn [ui U.quoteForm U.qf_text U.qf_discussion U.qf_user_id U.selectedBook].
    pose proof (falsy_trim wtext) as Hw.
    destruct (whitespace_only wtext); unfold_runtime; rewrite Hw;
      split_and!; reflexivity.
  - take_apart v. destruct quoteForm as [vtext vdisc].
    cbn [ui F.quoteForm F.qf_text F.qf_discussion F.selectedBook F.currentUser].
    pose proof (falsy_trim vtext) as Hv.
    destruct (whitespace_only vtext); unfold_runtime; rewrite Hv;
      split_and!; reflexivity.
  - intros Hsel Hb. rewrite (U_addQuote_sends w Hb), Hsel. reflexivity.
  - intros Hsel Hb. take_apart v. destruct quoteForm as [vtext vdisc].
    cbn [ui F.quoteForm F.qf_text F.qf_discussion F.selectedBook F.currentUser]
      in *.
    rewrite <- falsy_trim in Hb. subst. unfold_runtime. by rewrite Hb.
  - intros Hnull Hb.
    set (shown := I.session _ (U.mounted store)).
    set (picked := I.react shown _).
    set (typed := I.react picked _).
    split_and!.
    + exact Hnull.
    + reflexivity.
    + reflexivity.
    + reflexivity.
    + change (I.react typed (I.User I.SubmitQuote_onClick))
        with (run U.addQuote typed).
      rewrite (U_addQuote_sends typed Hb). vm_compute. reflexivity.
Qed.

End AddQuote.

Section AddQuoteWitness.
Import Fixture Scenario.

Lemma add_quote_checks_text_only_witness :
  let shown := I.session [I.Network 0 (Fulfilled books_payload);
                          I.Network 0 (Fulfilled quotes_payload);
                          I.Network 0 (Fulfilled orphans_payload)]
                 (U.mounted ∅) in
  sent (I.session [I.User (I.Card_onClick Null);
                   I.User (I.QuoteText_onChange "Fear is the mind-killer");
                   I.User I.SubmitQuote_onClick] shown)
  = sent shown ++
      [mkRequest POST "http://localhost:8001/api/quotes"
         (Some (QuoteBody Null "Fear is the mind-killer" 1 ""))].
Proof.
  assert (Hnull : Null ∈ entries orphans_payload).
  { apply list_elem_of_further, list_elem_of_here. }
  destruct (add_quote_checks_text_only quoting F_quoting ∅ books_payload
              quotes_payload orphans_payload "Fear is the mind-killer")
    as (_ & _ & _ & _ & Hreach).
  destruct (Hreach Hnull eq_refl) as (_ & _ & _ & _ & Hsent).
  exact Hsent.
Defined.

End AddQuoteWitness.


(** ** The per-collection fetch functions and the cache *)

Section Fetch.
Context `{Platform}.

(** A fetch that succeeds replaces its collection by the response and stores
    the serialised response under the key of the collection ([part_000]). *)
Lemma U_fetch_success (c : collection) (d : json) (w : World U.State) :
  let w' := run (U.fetch_resume c (Fulfilled d)) w in
  U.cell c (ui w') = d
  ∧ localStorage w' = <[U.cache_key c := JSON_stringify d]> (localStorage w)
  ∧ toasts w' = toasts w
  ∧ unhandled w' = unhandled w.
Proof. take_apart w. destruct c; unfold_runtime; split_and!; reflexivity. Qed.

(** Every case of the fallback of a failed fetch ([part_000]): the entry is
    missing, empty, malformed, or parses to a value. *)
Lemma U_fetch_failure (c : collection) (e : exn) (w : World U.State) :
  let w' := run (U.fetch_resume c (Rejected e)) w in
  sent w' = sent w ∧ localStorage w' = localStorage w
  ∧ console w' = console w ++ [e]
  ∧ match localStorage w !! U.cache_key c with
    | None =>
        ui w' = ui w ∧ unhandled w' = unhandled w
        ∧ toasts w' = toasts w ++ [toast_error (U.fetch_failure_message c)]
    | Some text =>
        if falsy text then
          ui w' = ui w ∧ unhandled w' = unhandled w
          ∧ toasts w' = toasts w ++ [toast_error (U.fetch_failure_message c)]
        else
          match JSON_parse text with
          | Some v =>
              U.cell c (ui w') = v ∧ unhandled w' = unhandled w
              ∧ toasts w' = toasts w ++ [toast_error (U.fetch_failure_message c)]
          | None =>
              ui w' = ui w ∧ unhandled w' = unhandled w ++ [SyntaxError]
              ∧ toasts w' = toasts w
          end
    end.
Proof.
  take_apart w.
  destruct c; unfold_runtime; split_cases; split_and!; reflexivity.
Qed.

(** X9. A snapshot stored by a successful fetch is what a later failed fetch
    of the same collection falls back to, on a platform where [JSON.parse]
    inverts [JSON.stringify] on that value ([part_000]). *)
Lemma U_fetch_cache_round_trip
    (c : collection) (d : json) (e : exn) (w : World U.State) :
  JSON_parse (JSON_stringify d) = Some d →
  falsy (JSON_stringify d) = false →
  let w1 := run (U.fetch_resume c (Fulfilled d)) w in
  ∀ w2, localStorage w2 = localStorage w1 →
    U.cell c (ui (run (U.fetch_resume c (Rejected e)) w2)) = d.
Proof.
  intros Hrt Hne w1 w2 Hl.
  pose proof (U_fetch_success c d w) as Hs. cbv zeta in Hs.
  destruct Hs as (_ & Hput & _).
  pose proof (U_fetch_failure c e w2) as Hf. cbv zeta in Hf.
  destruct Hf as (_ & _ & _ & Hcase).
  subst w1. rewrite Hl, Hput, lookup_insert_eq, Hne, Hrt in Hcase.
  by destruct Hcase.
Qed.

(** C6, as the code has it. In [part_000], when a per-collection fetch
    fails and the cache entry of the collection is absent, empty or text
    that [JSON.parse] accepts: nothing is thrown to the caller (the promise
    of the fetch function is not rejected); if the entry deserialises to a
    value the collection becomes exactly that value; if there is no entry
    (or an empty one) the collection keeps its value; the other collections
    and the cache are untouched; and the notification of that collection is
    raised. *)
Theorem failed_fetch_falls_back_to_cache
    (w : World U.State) (i : nat) (c : collection) (e : exn) :
  inflight w !! i = Some (AwaitFetch c) →
  (∀ text, localStorage w !! U.cache_key c = Some text →
           falsy text = false → is_Some (JSON_parse text)) →
  let w' := U.deliver i (Rejected e) w in
  unhandled w' = unhandled w
  ∧ toasts w' = toasts w ++ [toast_error (U.fetch_failure_message c)]
  ∧ match localStorage w !! U.cache_key c with
    | Some text =>
        if falsy text then U.cell c (ui w') = U.cell c (ui w)
        else JSON_parse text = Some (U.cell c (ui w'))
    | None => U.cell c (ui w') = U.cell c (ui w)
    end
  ∧ (∀ c', c' ≠ c → U.cell c' (ui w') = U.cell c' (ui w))
  ∧ localStorage w' = localStorage w
  ∧ sent w' = sent w.
Proof.
  intros Hw Hsnap. cbv zeta. rewrite (U_deliver_lookup _ _ _ _ Hw).
  change (U.resume (AwaitFetch c)) with (U.fetch_resume c).
  set (w0 := set_inflight (delete i (inflight w)) w).
  pose proof (U_fetch_failure c e w0) as Hf.
  pose proof (U_fetch_frame c (Rejected e) w0) as Hr.
  cbv zeta in Hf, Hr. destruct Hf as (Hs & Hl & _ & Hcase).
  destruct Hr as (_ & _ & Hcells & _).
  change (localStorage w0) with (localStorage w) in *.
  change (ui w0) with (ui w) in *.
  change (toasts w0) with (toasts w) in *.
  change (unhandled w0) with (unhandled w) in *.
  destruct (localStorage w !! U.cache_key c) as [text|] eqn:Hc.
  - destruct (falsy text) eqn:Hne.
    + destruct Hcase as (Hui & Hu & Ht).
      split_and!; try assumption. by rewrite Hui.
    + destruct (Hsnap text eq_refl Hne) as [v Hv].
      rewrite Hv in Hcase. destruct Hcase as (Hcell & Hu & Ht).
      split_and!; try assumption. by rewrite Hcell.
  - destruct Hcase as (Hui & Hu & Ht).
    split_and!; try assumption. by rewrite Hui.
Qed.

(** C9, as the code has it. In [part_000] the fallback of a failed fetch
    tolerates a missing and an empty cache entry: the React state is
    unchanged, nothing is thrown and the notification is raised.  A
    non-empty entry that [JSON.parse] rejects is not tolerated: the
    [SyntaxError] leaves the [catch] block, so the promise of the fetch
    function is rejected with it and the notification is not raised; the
    React state is unchanged in that case too. *)
Theorem fallback_tolerates_missing_not_malformed
    (w : World U.State) (i : nat) (c : collection) (e : exn) :
  inflight w !! i = Some (AwaitFetch c) →
  let w' := U.deliver i (Rejected e) w in
  let cached := localStorage w !! U.cache_key c in
  (cached = None ∨ cached = Some "" →
     ui w' = ui w ∧ unhandled w' = unhandled w
     ∧ toasts w' = toasts w ++ [toast_error (U.fetch_failure_message c)])
  ∧ (∀ text, cached = Some text → falsy text = false →
       JSON_parse text = None →
       ui w' = ui w ∧ unhandled w' = unhandled w ++ [SyntaxError]
       ∧ toasts w' = toasts w).
Proof.
  intros Hw. cbv zeta. rewrite (U_deliver_lookup _ _ _ _ Hw).
  change (U.resume (AwaitFetch c)) with (U.fetch_resume c).
  set (w0 := set_inflight (delete i (inflight w)) w).
  pose proof (U_fetch_failure c e w0) as Hf.
  cbv zeta in Hf. destruct Hf as (_ & _ & _ & Hcase).
  change (localStorage w0) with (localStorage w) in *.
  change (ui w0) with (ui w) in *.
  change (toasts w0) with (toasts w) in *.
  change (unhandled w0) with (unhandled w) in *.
  split.
  - intros [Hc | Hc]; rewrite Hc in Hcase; exact Hcase.
  - intros text Hc Hne Hbad. by rewrite Hc, Hne, Hbad in Hcase.
Qed.

End Fetch.

Section FetchWitnesses.
Import Fixture Scenario.

Lemma failed_fetch_falls_back_to_cache_witness :
  U.quotes (ui (U.deliver 0 (Rejected offline) (refetching Quotes snapshots)))
  = quotes_payload.
Proof.
  assert (Hsnap : ∀ text,
            localStorage (refetching Quotes snapshots) !! U.cache_key Quotes
            = Some text →
            falsy text = false → is_Some (JSON_parse text)).
  { intros text Ht _.
    change (Some (JSON_stringify quotes_payload) = Some text) in Ht.
    injection Ht as <-. exists quotes_payload. reflexivity. }
  destruct (failed_fetch_falls_back_to_cache (refetching Quotes snapshots) 0
              Quotes offline eq_refl Hsnap) as (_ & _ & Hc & _).
  change (JSON_parse (JSON_stringify quotes_payload)
          = Some (U.quotes (ui (U.deliver 0 (Rejected offline)
                                  (refetching Quotes snapshots))))) in Hc.
  change (JSON_parse (JSON_stringify quotes_payload))
    with (Some quotes_payload) in Hc.
  apply (inj Some). symmetry. exact Hc.
Defined.

(** C6, as claimed, fails when the cache holds text that is not JSON: with
    a snapshot of the quotes cut short under [quotes], a failed
    [fetchQuotes] is thrown to its caller (its promise is rejected with the
    [SyntaxError]) and the notification of the quotes is not raised. *)
Lemma failed_fetch_throws_on_unreadable_snapshot :
  let w := U.deliver 0 (Rejected offline) (refetching Quotes truncated) in
  truncated !! "quotes" = Some "[{"
  ∧ JSON_parse "[{" = None
  ∧ unhandled w = [SyntaxError]
  ∧ toasts w = [].
Proof. vm_compute. split_and!; reflexivity. Qed.

(** C9, as claimed, fails on a malformed entry: with ["{oops"] stored under
    [books], a failed [fetchBooks] ends in a rejected promise carrying the
    [SyntaxError] and raises no notification. *)
Lemma malformed_cache_entry_is_thrown :
  let w := U.deliver 0 (Rejected offline) (refetching Books corrupted) in
  JSON_parse "{oops" = None
  ∧ unhandled w = [SyntaxError]
  ∧ toasts w = [].
Proof. vm_compute. split_and!; reflexivity. Qed.

Lemma fallback_tolerates_missing_not_malformed_witness :
  unhandled (U.deliver 0 (Rejected offline) (refetching Books corrupted))
  = [SyntaxError].
Proof.
  destruct (fallback_tolerates_missing_not_malformed
              (refetching Books corrupted) 0 Books offline eq_refl)
    as [_ Hbad].
  destruct (Hbad "{oops" eq_refl eq_refl eq_refl) as (_ & Hu & _).
  exact Hu.
Defined.

End FetchWitnesses.

(** ** The initial load *)

Section InitialLoad.
Context `{Platform}.

Lemma mounted_eq (store : gmap string string) :
  U.mounted store
  = mkWorld U.initial_state [U.initial_state; U.initial_state] store [] []
      [mkRequest GET (API +:+ "/books/") None;
       mkRequest GET (API +:+ "/quotes/") None;
       mkRequest GET (API +:+ "/books-with-quotes/") None]
      [AwaitLoadAll Books; AwaitLoadAll Quotes; AwaitLoadAll BooksWithQuotes]
      false (Some (mkSlots None None None)) [].
Proof. reflexivity. Qed.

(** One event while only the initial load is in flight: nothing is sent, the
    cache is not written, and the React state, the notifications and what has
    been shown can only change when the barrier settles in a component that
    has not been torn down. *)
Lemma U_step_initial_load (w : World U.State) (e : U.event) :
  U.only_initial_load w →
  let w' := U.step w e in
  U.only_initial_load w'
  ∧ localStorage w' = localStorage w
  ∧ sent w' = sent w
  ∧ (cancelled w = true →
       cancelled w' = true ∧ ui w' = ui w ∧ toasts w' = toasts w
       ∧ renders w' = renders w)
  ∧ (promise_all w' ≠ None →
       promise_all w ≠ None ∧ ui w' = ui w ∧ toasts w' = toasts w
       ∧ renders w' = renders w).
Proof.
  intros Hslots. cbv zeta. destruct e as [i r|]; cbn [U.step].
  - destruct (inflight w !! i) as [k|] eqn:Hk.
    + rewrite (U_deliver_lookup _ _ _ _ Hk).
      assert (Hd : Forall (λ k, ∃ c, k = AwaitLoadAll c) (delete i (inflight w)))
        by (by apply Forall_delete).
      unfold U.only_initial_load in Hslots.
      rewrite Forall_lookup in Hslots. destruct (Hslots i k Hk) as [c ->].
      clear Hslots Hk. unfold U.only_initial_load.
      destruct w as [u rn ls ts cs sn inf cn pa un]. cbn [inflight] in Hd.
      destruct pa as [[[b|] [q|] [t|]]|], r as [d|err], c, cn;
        unfold_runtime;
        (split_and!; [exact Hd | reflexivity | reflexivity | |]);
        intros Hx; try discriminate Hx; try (by destruct Hx);
        split_and!; congruence.
    + rewrite deliver_nothing by done.
      split_and!; [done | done | done | by intros -> | by intros ?].
  - unfold U.only_initial_load in *.
    destruct w as [u rn ls ts cs sn inf cn pa un]. unfold_runtime.
    split_and!; [exact Hslots | done | done | done | by intros ?].
Qed.

Lemma U_steps_initial_load (es : list U.event) (w : World U.State) :
  U.only_initial_load w →
  let w' := U.steps es w in
  U.only_initial_load w'
  ∧ localStorage w' = localStorage w
  ∧ sent w' = sent w
  ∧ (cancelled w = true →
       cancelled w' = true ∧ ui w' = ui w ∧ toasts w' = toasts w
       ∧ renders w' = renders w)
  ∧ (promise_all w' ≠ None →
       promise_all w ≠ None ∧ ui w' = ui w ∧ toasts w' = toasts w
       ∧ renders w' = renders w).
Proof.
  revert w. induction es as [|e es IH]; intros w Hslots; cbv zeta.
  - cbn. split_and!; done.
  - change (U.steps (e :: es) w) with (U.steps es (U.step w e)).
    destruct (U_step_initial_load w e Hslots) as (H1 & H2 & H3 & H4 & H5).
    destruct (IH _ H1) as (I1 & I2 & I3 & I4 & I5).
    split_and!.
    + exact I1.
    + congruence.
    + congruence.
    + intros Hc. destruct (H4 Hc) as (Hc' & ? & ? & ?).
      destruct (I4 Hc') as (? & ? & ? & ?). split_and!; congruence.
    + intros Hp. destruct (I5 Hp) as (Hp' & ? & ? & ?).
      destruct (H5 Hp') as (? & ? & ? & ?). split_and!; congruence.
Qed.

Lemma mounted_only_initial_load (store : gmap string string) :
  U.only_initial_load (U.mounted store).
Proof.
  rewrite mounted_eq. unfold U.only_initial_load. cbn.
  repeat constructor; eexists; reflexivity.
Qed.

(** C5. If the view is torn down while the barrier of the initial load has
    not resolved yet, then whatever the three fetches answer afterwards, and
    in whatever order, nothing is applied: the React state is still the
    initial one (all collections empty), nothing has been shown or notified,
    and the cache is as the browser had it. *)
Theorem teardown_discards_initial_load
    (store : gmap string string) (before after : list U.event) :
  promise_all (U.steps before (U.mounted store)) ≠ None →
  let w := U.steps (before ++ U.Unmount :: after) (U.mounted store) in
  ui w = U.initial_state
  ∧ U.books (ui w) = json_empty_array
  ∧ U.quotes (ui w) = json_empty_array
  ∧ U.booksWithQuotes (ui w) = json_empty_array
  ∧ renders w = [U.initial_state; U.initial_state]
  ∧ toasts w = []
  ∧ localStorage w = store.
Proof.
  intros Hpending. cbv zeta.
  unfold U.steps. rewrite fold_left_app. fold (U.steps before (U.mounted store)).
  cbn [fold_left].
  set (w1 := U.steps before (U.mounted store)) in *.
  fold (U.steps after (U.step w1 U.Unmount)).
  destruct (U_steps_initial_load before (U.mounted store)
              (mounted_only_initial_load store)) as (S1 & L1 & _ & _ & P1).
  fold w1 in S1, L1, P1. destruct (P1 Hpending) as (_ & Hui & Hto & Hre).
  destruct (U_step_initial_load w1 U.Unmount S1) as (S2 & L2 & _ & _ & _).
  assert (Hc : cancelled (U.step w1 U.Unmount) = true) by reflexivity.
  destruct (U_steps_initial_load after (U.step w1 U.Unmount) S2)
    as (_ & L3 & _ & C3 & _).
  destruct (C3 Hc) as (_ & Hui3 & Hto3 & Hre3).
  assert (Hfinal : ui (U.steps after (U.step w1 U.Unmount)) = U.initial_state).
  { rewrite Hui3. change (ui (U.step w1 U.Unmount)) with (ui w1).
    rewrite Hui. reflexivity. }
  split_and!.
  - exact Hfinal.
  - by rewrite Hfinal.
  - by rewrite Hfinal.
  - by rewrite Hfinal.
  - rewrite Hre3. change (renders (U.step w1 U.Unmount)) with (renders w1).
    rewrite Hre. reflexivity.
  - rewrite Hto3. change (toasts (U.step w1 U.Unmount)) with (toasts w1).
    rewrite Hto. reflexivity.
  - rewrite L3, L2, L1. reflexivity.
Qed.

(** C8, on the initial load. Whatever the three initial fetches answer, the
    initial load never writes the cache; when the three succeed it replaces
    the three collections, and the cache is still as the browser had it,
    whereas [fetchBooks], [fetchQuotes] and [fetchBooksWithQuotes] store a
    snapshot on success (lemma [U_fetch_success]). *)
Theorem initial_load_writes_no_snapshot
    (store : gmap string string) (b q t : json) :
  (∀ es, localStorage (U.steps es (U.mounted store)) = store)
  ∧ (let w := U.steps [U.Respond 0 (Fulfilled b); U.Respond 0 (Fulfilled q);
                       U.Respond 0 (Fulfilled t)] (U.mounted store) in
     U.books (ui w) = b ∧ U.quotes (ui w) = q ∧ U.booksWithQuotes (ui w) = t
     ∧ U.loading (ui w) = false
     ∧ localStorage w = store).
Proof.
  split.
  - intros es.
    destruct (U_steps_initial_load es (U.mounted store)
                (mounted_only_initial_load store)) as (_ & L & _).
    exact L.
  - cbv zeta. split_and!; reflexivity.
Qed.

End InitialLoad.

Section InitialLoadOutcomes.
Context `{Platform}.

Lemma collection_NoDup_length (l : list collection) :
  NoDup l → (length l ≤ 3)%nat.
Proof.
  intros Hnd.
  change 3 with (length [Books; Quotes; BooksWithQuotes]).
  apply submseteq_length, NoDup_submseteq; [exact Hnd|].
  intros [] _; set_solver.
Qed.

(** C2, as the code has it. For every completion order and outcome of the
    initial fetches settled so far (the view not being torn down):
    - as long as none has failed and fewer than three have succeeded, the
      state is the initial one and [loading] is [true];
    - once all three have succeeded, the three results are the three
      collections and [loading] is [false];
    - once one has failed, [loading] is [false], none of the results is
      applied (also not those of the fetches that had succeeded), and the one
      notification "Failed to load data" is raised for the first failure;
    and in each case the only state ever shown with [loading] equal to
    [false] is the final one. *)
Theorem initial_load_all_or_nothing
    (store : gmap string string) (schedule : list (collection * response)) :
  NoDup (schedule.*1) →
  let w := U.play schedule (U.mounted store) in
  match U.first_rejection schedule with
  | Some e =>
      U.loading (ui w) = false
      ∧ U.books (ui w) = json_empty_array
      ∧ U.quotes (ui w) = json_empty_array
      ∧ U.booksWithQuotes (ui w) = json_empty_array
      ∧ toasts w = [toast_error "Failed to load data"]
      ∧ console w = [e]
  | None =>
      match U.delivered Books schedule, U.delivered Quotes schedule,
            U.delivered BooksWithQuotes schedule with
      | Some b, Some q, Some t =>
          U.loading (ui w) = false
          ∧ U.books (ui w) = b
          ∧ U.quotes (ui w) = q
          ∧ U.booksWithQuotes (ui w) = t
          ∧ toasts w = []
      | _, _, _ =>
          U.loading (ui w) = true ∧ ui w = U.initial_state ∧ toasts w = []
      end
  end
  ∧ Forall (λ s, U.loading s = false → s = ui w) (renders w).
Proof.
  intros Hnd. pose proof (collection_NoDup_length _ Hnd) as Hlen.
  rewrite length_fmap in Hlen.
  apply (bool_decide_eq_true_2 _) in Hnd.
  destruct schedule as [|[c1 r1] [|[c2 r2] [|[c3 r3] [|x rest]]]];
    [| | | | cbn in Hlen; lia]; clear Hlen; cbv zeta.
  - vm_compute. split_and!; try reflexivity.
    repeat constructor; intros; discriminate.
  - destruct c1, r1; vm_compute; (split_and!; try reflexivity);
      repeat constructor; intros; try discriminate; reflexivity.
  - destruct c1, c2; try (vm_compute in Hnd; discriminate Hnd);
      destruct r1, r2; vm_compute; (split_and!; try reflexivity);
      repeat constructor; intros; try discriminate; reflexivity.
  - destruct c1, c2, c3; try (vm_compute in Hnd; discriminate Hnd);
      destruct r1, r2, r3; vm_compute; (split_and!; try reflexivity);
      repeat constructor; intros; try discriminate; reflexivity.
Qed.

End InitialLoadOutcomes.

Section InitialLoadWitnesses.
Import Fixture Scenario.

(** C2, as claimed, fails as soon as one fetch fails: the books fetch has
    succeeded and a snapshot of the quotes is cached, yet after the failure
    of the quotes fetch [loading] is [false] while the third fetch is still
    in flight, the books collection is not the fetched one and the quotes
    collection is not the cached one. *)
Lemma initial_load_drops_results_on_failure :
  let w := U.play [(Books, Fulfilled books_payload); (Quotes, Rejected offline)]
             (U.mounted snapshots) in
  snapshots !! "quotes" = Some (JSON_stringify quotes_payload)
  ∧ U.loading (ui w) = false
  ∧ inflight w = [AwaitLoadAll BooksWithQuotes]
  ∧ U.books (ui w) ≠ books_payload
  ∧ U.quotes (ui w) ≠ quotes_payload
  ∧ U.booksWithQuotes (ui w) = VArr [].
Proof. vm_compute. split_and!; try reflexivity; discriminate. Qed.

Lemma initial_load_all_or_nothing_witness :
  let w := U.play [(Quotes, Fulfilled quotes_payload);
                   (BooksWithQuotes, Fulfilled titles_payload);
                   (Books, Fulfilled books_payload)] (U.mounted ∅) in
  U.loading (ui w) = false
  ∧ U.books (ui w) = books_payload
  ∧ U.quotes (ui w) = quotes_payload
  ∧ U.booksWithQuotes (ui w) = titles_payload.
Proof.
  assert (Hnd : NoDup [Quotes; BooksWithQuotes; Books])
    by (apply NoDup_ListNoDup; repeat constructor; cbn; intuition discriminate).
  destruct (initial_load_all_or_nothing ∅
              [(Quotes, Fulfilled quotes_payload);
               (BooksWithQuotes, Fulfilled titles_payload);
               (Books, Fulfilled books_payload)] Hnd) as [Hw _].
  destruct Hw as (Hl & Hb & Hq & Ht & _).
  split_and!; assumption.
Defined.

Lemma teardown_discards_initial_load_witness :
  let w := U.steps [U.Respond 0 (Fulfilled books_payload); U.Unmount;
                    U.Respond 0 (Fulfilled quotes_payload);
                    U.Respond 0 (Fulfilled titles_payload)]
             (U.mounted snapshots) in
  ui w = U.initial_state ∧ localStorage w = snapshots.
Proof.
  assert (Hp : promise_all (U.steps [U.Respond 0 (Fulfilled books_payload)]
                              (U.mounted snapshots)) ≠ None).
  { change (Some (mkSlots (Some books_payload) None None) ≠ None).
    discriminate. }
  destruct (teardown_discards_initial_load snapshots
              [U.Respond 0 (Fulfilled books_payload)]
              [U.Respond 0 (Fulfilled quotes_payload);
               U.Respond 0 (Fulfilled titles_payload)] Hp)
    as (Hui & _ & _ & _ & _ & _ & Hl).
  split; [exact Hui | exact Hl].
Defined.

End InitialLoadWitnesses.

(** * Further properties of the code *)

(** ** Tactics *)

(** Evaluate the innermost [run] of the goal, on a world that is given by
    its fields, using the equations of the context about the cache. *)
Ltac eval_step :=
  repeat (unfold_runtime;
          try rewrite lookup_insert_ne by done;
          try rewrite lookup_insert_eq;
          try match goal with
              | E : ?x = _ |- context [?x] => rewrite E
              end).

Ltac eval_run :=
  match goal with
  | |- context [run ?m (mkWorld ?a ?b ?c ?d ?e ?f ?g ?h ?i ?j)] =>
      let E := fresh "E" in
      eassert (E : run m (mkWorld a b c d e f g h i j) = _)
        by (eval_step; reflexivity);
      rewrite E; clear E
  end.

(** The cases of a cache entry: absent, empty, malformed, or a snapshot. *)
Ltac cache_cases ls k :=
  let t := fresh "text" in
  destruct (ls !! k) as [t|] eqn:?;
    [destruct (falsy t) eqn:?; [|destruct (JSON_parse t) eqn:?]|].

(** The same for every failed fetch of the goal. *)
Ltac cache_cases_of_goal ls :=
  repeat match goal with
         | |- context [U.fetch_resume ?c (Rejected _)] =>
             let k := eval cbv in (U.cache_key c) in
             lazymatch goal with
             | _ : ls !! k = _ |- _ => fail
             | _ => cache_cases ls k
             end
         end.

(** Linear arithmetic over the rationals, the integer literals read as
    rationals. *)
Ltac qlra :=
  change (inject_Z 0) with (Qmake 0 1) in *;
  change (inject_Z 1) with (Qmake 1 1) in *;
  change (inject_Z 10) with (Qmake 10 1) in *;
  lra.

(** ** What a session can send *)

Section Sessions.
Context `{Platform}.

Lemma U_deliver_summary (i : nat) (r : response) (w : World U.State) :
  let w' := U.deliver i r w in
  (∃ cs, sent w' = sent w ++ map U.fetch_request cs
         ∧ inflight w' = delete i (inflight w) ++ map AwaitFetch cs)
  ∧ U.selectedBook (ui w') = U.selectedBook (ui w)
  ∧ (U.showAddQuote (ui w') = true → U.showAddQuote (ui w) = true).
Proof.
  cbv zeta. destruct (inflight w !! i) as [k|] eqn:Hk.
  - rewrite (U_deliver_lookup _ _ _ _ Hk). clear Hk.
    destruct w as [u rn ls ts cs sn inf cn pa un]; destruct u.
    destruct k as [c|m|c].
    + destruct c, r; unfold_runtime; split_cases;
        (split_and!; [exists []; by rewrite !app_nil_r | done | done]).
    + destruct r as [d|e];
        [split_and!; [exists (U.refreshes m)| |]
        |split_and!; [exists []| |]];
        destruct m; unfold_runtime; rewrite <- ?app_assoc, ?app_nil_r;
        done.
    + destruct pa as [[[b|] [q|] [t|]]|], r, c, cn; unfold_runtime;
        (split_and!; [exists []; by rewrite !app_nil_r | done | done]).
  - rewrite deliver_nothing by done. split_and!; [|done|done].
    exists []. rewrite !app_nil_r. split; [done|].
    apply lookup_ge_None in Hk.
    rewrite delete_take_drop, take_ge, drop_ge, app_nil_r by lia. done.
Qed.

(** What a handler of the markup does to the requests and to the two cells
    that decide which book a new quote is attached to: a request that
    creates a quote carries [selectedBook] and is sent from the open dialog;
    only a quote card changes [selectedBook]; only a quote card or the
    dialog widget opens the dialog. *)
Lemma perform_summary (a : I.action) (w : World U.State) :
  I.available (ui w) a = true →
  let w' := run (I.perform a) w in
  (∃ new ks, sent w' = sent w ++ new
          ∧ inflight w' = inflight w ++ ks
          ∧ Forall (λ k, k ≠ AwaitMutation UpdateQuoteDiscussion) ks
          ∧ Forall (λ rq, I.request_ok rq = true) new
          ∧ Forall (λ rq, ∀ b t u d, req_body rq = Some (QuoteBody b t u d) →
                          b = U.selectedBook (ui w)
                          ∧ U.showAddQuote (ui w) = true) new)
  ∧ match a with
    | I.Card_onClick bookTitle => U.selectedBook (ui w') = bookTitle
    | _ => U.selectedBook (ui w') = U.selectedBook (ui w)
    end
  ∧ match a with
    | I.Card_onClick _ | I.AddQuoteDialog_onOpenChange true => True
    | _ => U.showAddQuote (ui w') = true → U.showAddQuote (ui w) = true
    end.
Proof.
  intros Hav. cbv zeta.
  destruct w as [u rn ls ts cs sn inf cn pa un]; destruct u.
  destruct bookForm as [bt bs br], editBookForm as [et es er eo],
    quoteForm as [qt qd qu].
  pose proof (falsy_trim bt) as Hbt. pose proof (falsy_trim et) as Het.
  pose proof (falsy_trim qt) as Hqt.
  assert (Hnil : ∀ l : list request, l = l ++ []) by (intros; by rewrite app_nil_r).
  assert (Hnil' : ∀ l : list waiter, l = l ++ []) by (intros; by rewrite app_nil_r).
  destruct a; cbn in Hav; unfold I.perform, U.onClick_quote_book_card;
    unfold_runtime;
    rewrite ?Hbt, ?Het, ?Hqt;
    try (destruct (whitespace_only bt) eqn:Hb);
    try (destruct (whitespace_only et) eqn:He);
    try (destruct (whitespace_only qt) eqn:Hq);
    try (destruct confirmed);
    try (destruct open);
    unfold_runtime.
  all: (split_and!; [|done..]).
  all: try (exists [], []; split_and!; [apply Hnil | apply Hnil' | done..]).
  all: eexists [_], [_]; split_and!; [reflexivity | reflexivity | | |].
  all: try (repeat constructor; done).
  all: try (repeat constructor; unfold I.request_ok; cbn; by rewrite ?Hb, ?He, ?Hq).
  all: constructor; [|constructor].
  all: intros b' t' u' d' Hbody; cbn in Hbody; simplify_eq; done.
Qed.

Lemma fetch_requests_ok (cs : list collection) :
  Forall (λ rq, I.request_ok rq = true) (map U.fetch_request cs)
  ∧ Forall (λ rq, req_body rq = None) (map U.fetch_request cs).
Proof. split; apply Forall_forall; intros rq [c [-> _]]%list_elem_of_fmap; done. Qed.

(** One input keeps what has been sent well formed, and keeps the handler
    of the discussion update out of the requests in flight. *)
Lemma react_well_formed (w : World U.State) (x : I.input) :
  Forall (λ rq, I.request_ok rq = true) (sent w) →
  Forall (λ k, k ≠ AwaitMutation UpdateQuoteDiscussion) (inflight w) →
  Forall (λ rq, I.request_ok rq = true) (sent (I.react w x))
  ∧ Forall (λ k, k ≠ AwaitMutation UpdateQuoteDiscussion)
      (inflight (I.react w x)).
Proof.
  intros Hs Hi. destruct x as [a|i r|]; cbn [I.react].
  - destruct (I.available (ui w) a) eqn:Hav; [|done].
    destruct (perform_summary a w Hav) as ((new & ks & -> & -> & Hk & Hn & _) & _).
    split; apply Forall_app; done.
  - destruct (U_deliver_summary i r w) as ((cs & -> & ->) & _).
    split; apply Forall_app; split; try done.
    + apply fetch_requests_ok.
    + by apply Forall_delete.
    + apply Forall_forall. by intros k [c [-> _]]%list_elem_of_fmap.
  - done.
Qed.

Lemma quotes_attached_to_more (seen more : list (element json))
    (w : World U.State) :
  I.quotes_attached_to seen w → I.quotes_attached_to (seen ++ more) w.
Proof.
  intros [Hsel Hs]. split.
  - intros Hopen. apply elem_of_app. left. auto.
  - eapply Forall_impl; [exact Hs|]. intros rq Hrq b t u d Hb.
    apply elem_of_app. left. eauto.
Qed.

(** One input that does not open the add-quote dialog by itself keeps the
    quote requests attached to the cards clicked so far. *)
Lemma react_attached (seen : list (element json)) (w : World U.State)
    (x : I.input) :
  I.opens_quote_dialog x = false →
  I.quotes_attached_to seen w →
  I.quotes_attached_to (seen ++ I.clicked [x]) (I.react w x).
Proof.
  intros Hx [Hsel Hs]. destruct x as [a|i r|]; cbn [I.react].
  - destruct (I.available (ui w) a) eqn:Hav;
      [|by apply quotes_attached_to_more].
    destruct (perform_summary a w Hav)
      as ((new & ks & Hsent & _ & _ & _ & Hn) & Hkeep & Hshow).
    split.
    + intros Hopen. apply elem_of_app.
      destruct a; try (left; rewrite Hkeep; by auto).
      * destruct open; [done|]. left. rewrite Hkeep. by auto.
      * right. rewrite Hkeep.
        change (bookTitle ∈ [bookTitle]). apply list_elem_of_here.
    + rewrite Hsent. apply Forall_app. split.
      * eapply Forall_impl; [exact Hs|]. intros rq Hrq b t u d Hb.
        apply elem_of_app. left. eauto.
      * eapply Forall_impl; [exact Hn|]. intros rq Hrq b t u d Hb.
        destruct (Hrq b t u d Hb) as [-> Hopen].
        apply elem_of_app. left. auto.
  - rewrite app_nil_r.
    destruct (U_deliver_summary i r w) as ((cs & Hsent & _) & Hb & Hshow).
    split.
    + intros Hopen. rewrite Hb. auto.
    + rewrite Hsent. apply Forall_app; split; [done|].
      eapply Forall_impl; [apply fetch_requests_ok|].
      intros rq Hnone b t u d Hbody. by rewrite Hnone in Hbody.
  - rewrite app_nil_r. by split.
Qed.

Lemma session_well_formed (inputs : list I.input) (w : World U.State) :
  Forall (λ rq, I.request_ok rq = true) (sent w) →
  Forall (λ k, k ≠ AwaitMutation UpdateQuoteDiscussion) (inflight w) →
  Forall (λ rq, I.request_ok rq = true) (sent (I.session inputs w))
  ∧ Forall (λ k, k ≠ AwaitMutation UpdateQuoteDiscussion)
      (inflight (I.session inputs w)).
Proof.
  revert w. induction inputs as [|x inputs IH]; intros w Hs Hi; [done|].
  destruct (react_well_formed w x Hs Hi) as [Hs' Hi'].
  exact (IH _ Hs' Hi').
Qed.

Lemma session_attached (inputs : list I.input) (seen : list (element json))
    (w : World U.State) :
  Forall (λ x, I.opens_quote_dialog x = false) inputs →
  I.quotes_attached_to seen w →
  I.quotes_attached_to (seen ++ I.clicked inputs) (I.session inputs w).
Proof.
  intros Hin. revert seen w.
  induction Hin as [|x inputs Hx _ IH]; intros seen w Hw.
  { rewrite app_nil_r. exact Hw. }
  change (I.session (x :: inputs) w) with (I.session inputs (I.react w x)).
  replace (I.clicked (x :: inputs)) with (I.clicked [x] ++ I.clicked inputs)
    by (symmetry; apply (omap_app _ [x] inputs)).
  rewrite app_assoc. apply IH. by apply react_attached.
Qed.

Lemma mounted_well_formed (store : gmap string string) :
  Forall (λ rq, I.request_ok rq = true) (sent (U.mounted store))
  ∧ Forall (λ rq, req_body rq = None) (sent (U.mounted store))
  ∧ Forall (λ k, k ≠ AwaitMutation UpdateQuoteDiscussion)
      (inflight (U.mounted store)).
Proof. rewrite mounted_eq. cbn. split_and!; repeat constructor; done. Qed.

(** X1. Whatever the user does and the server answers after the mount, in any
    order, no request of [updateQuoteDiscussion] is ever sent or in flight:
    no handler of the markup calls that function. *)
Theorem session_never_updates_a_discussion
    (store : gmap string string) (inputs : list I.input) :
  let w := I.session inputs (U.mounted store) in
  Forall (λ rq, ∀ d, req_body rq ≠ Some (DiscussionBody d)) (sent w)
  ∧ AwaitMutation UpdateQuoteDiscussion ∉ inflight w.
Proof.
  cbv zeta.
  destruct (mounted_well_formed store) as (Hs & _ & Hi).
  destruct (session_well_formed inputs _ Hs Hi) as [Hs' Hi'].
  split.
  - eapply Forall_impl; [exact Hs'|]. intros rq Hok d Hd.
    unfold I.request_ok in Hok. by rewrite Hd in Hok.
  - rewrite Forall_forall in Hi'. intros Hin. by apply (Hi' _ Hin).
Qed.

(** X2. Whatever the user does and the server answers after the mount, every
    request that creates a book carries a title that is not blank, every
    request that renames a book a new title that is not blank, and every
    request that creates a quote a text that is not blank; the status
    selector of a row, the one write without a check, sends no title.
    Blank is what [trim] empties.  The book title of a created quote is not
    covered: it is whatever the clicked card held, the empty string
    included. *)
Theorem session_never_sends_blank_text
    (store : gmap string string) (inputs : list I.input) :
  let w := I.session inputs (U.mounted store) in
  Forall (λ rq, ∀ b, req_body rq = Some b → I.well_formed_body b = true)
    (sent w).
Proof.
  cbv zeta.
  destruct (mounted_well_formed store) as (Hs & _ & Hi).
  destruct (session_well_formed inputs _ Hs Hi) as [Hs' _].
  eapply Forall_impl; [exact Hs'|]. intros rq Hok b Hb.
  unfold I.request_ok in Hok. rewrite Hb in Hok. by destruct b.
Qed.

(** X3. As long as the add-quote dialog is opened by clicking a quote card
    only (the markup gives it no trigger), the book a new quote is attached
    to is the element of a card that was clicked: while the dialog is open
    [selectedBook] is such an element, and so is the [book_title] of every
    request that creates a quote.  So a quote without a book is requested
    only after a click on a card whose element is [null]. *)
Theorem session_quotes_name_a_clicked_card
    (store : gmap string string) (inputs : list I.input) :
  Forall (λ x, I.opens_quote_dialog x = false) inputs →
  let w := I.session inputs (U.mounted store) in
  (U.showAddQuote (ui w) = true → U.selectedBook (ui w) ∈ I.clicked inputs)
  ∧ Forall (λ rq, ∀ book_title text user discussion,
              req_body rq = Some (QuoteBody book_title text user discussion) →
              book_title ∈ I.clicked inputs)
      (sent w)
  ∧ (Null ∉ I.clicked inputs →
     Forall (λ rq, I.names_a_book rq = true) (sent w)).
Proof.
  intros Hin. cbv zeta.
  assert (Hstart : I.quotes_attached_to [] (U.mounted store)).
  { split; [by rewrite mounted_eq|].
    destruct (mounted_well_formed store) as (_ & Hnone & _).
    eapply Forall_impl; [exact Hnone|].
    intros rq Hrq b t u d Hbody. by rewrite Hrq in Hbody. }
  destruct (session_attached inputs [] _ Hin Hstart) as [Hsel Hs].
  split_and!; [exact Hsel | exact Hs |].
  intros Hnull. eapply Forall_impl; [exact Hs|]. intros rq Hrq.
  unfold I.names_a_book.
  destruct (req_body rq) as [[| |[]|]|] eqn:Hbody; try done.
  destruct Hnull. by eapply Hrq.
Qed.

End Sessions.

Section SessionWitnesses.
Import Fixture Scenario.

Lemma session_quotes_name_a_clicked_card_witness :
  let inputs := [I.Network 0 (Fulfilled books_payload);
                 I.Network 0 (Fulfilled quotes_payload);
                 I.Network 0 (Fulfilled titles_payload);
                 I.User (I.Card_onClick (Str "Dune"));
                 I.User (I.QuoteText_onChange "Fear is the mind-killer");
                 I.User I.SubmitQuote_onClick] in
  let w := I.session inputs (U.mounted ∅) in
  Forall (λ rq, ∀ book_title text user discussion,
            req_body rq = Some (QuoteBody book_title text user discussion) →
            book_title ∈ [Str "Dune"]) (sent w)
  ∧ length (sent w) = 4.
Proof.
  intros inputs w. split; [|reflexivity].
  refine (proj1 (proj2 (session_quotes_name_a_clicked_card ∅ inputs _))).
  repeat constructor.
Defined.

End SessionWitnesses.

(** ** Refreshes after a mutation *)

Section Refreshes.
Context `{Platform}.

Lemma delete_delete_le {A} (l : list A) (i j : nat) :
  (i ≤ j)%nat → delete j (delete i l) = delete i (delete (S j) l).
Proof.
  revert i j. induction l as [|x l IH]; intros i j Hij; [done|].
  destruct i as [|i]; [done|]. destruct j as [|j]; [lia|].
  cbn. f_equal. apply IH. lia.
Qed.

(** Two settled fetches of different collections commute, up to the order of
    the notifications and of the log ([part_000]). *)
Lemma U_fetch_resume_commute (c1 c2 : collection) (r1 r2 : response)
    (w : World U.State) :
  c1 ≠ c2 →
  let wa := run (U.fetch_resume c2 r2) (run (U.fetch_resume c1 r1) w) in
  let wb := run (U.fetch_resume c1 r1) (run (U.fetch_resume c2 r2) w) in
  ui wa = ui wb ∧ localStorage wa = localStorage wb ∧ sent wa = sent wb
  ∧ inflight wa = inflight wb ∧ cancelled wa = cancelled wb
  ∧ promise_all wa = promise_all wb
  ∧ toasts wa ≡ₚ toasts wb ∧ unhandled wa ≡ₚ unhandled wb.
Proof.
  intros Hne. cbv zeta. destruct w as [u rn ls ts cs sn inf cn pa un]; destruct u.
  destruct c1, c2; try done; clear Hne; destruct r1, r2;
    cache_cases_of_goal ls;
    do 4 eval_run; unfold_runtime;
    (split_and!; try reflexivity; try (by apply insert_insert_ne);
     rewrite <- ?app_assoc; try apply Permutation_app_head;
     try reflexivity; try apply perm_swap).
Qed.

(** A settled fetch does not look at the requests in flight. *)
Lemma U_fetch_resume_set_inflight (c : collection) (r : response)
    (l : list waiter) (w : World U.State) :
  run (U.fetch_resume c r) (set_inflight l w)
  = set_inflight l (run (U.fetch_resume c r) w).
Proof.
  destruct w as [u rn ls ts cs sn inf cn pa un]; destruct u.
  destruct c, r; cache_cases_of_goal ls; unfold set_inflight at 1;
    cbn [ui renders localStorage toasts console sent inflight cancelled
         promise_all unhandled];
    do 2 eval_run; reflexivity.
Qed.

(** X4. The refreshes a mutation starts are not awaited: they settle in the order
    in which the server answers.  For two pending fetches of different
    collections that order does not matter ([part_000]): the React state,
    the cache and the requests left in flight are the same, and the same
    notifications are raised, in the other order. *)
Theorem refreshes_settle_in_any_order
    (w : World U.State) (i j : nat) (c1 c2 : collection) (r1 r2 : response) :
  (i ≤ j)%nat →
  inflight w !! i = Some (AwaitFetch c1) →
  inflight w !! S j = Some (AwaitFetch c2) →
  c1 ≠ c2 →
  let wa := U.deliver j r2 (U.deliver i r1 w) in
  let wb := U.deliver i r1 (U.deliver (S j) r2 w) in
  ui wa = ui wb
  ∧ localStorage wa = localStorage wb
  ∧ sent wa = sent wb
  ∧ inflight wa = delete j (delete i (inflight w))
  ∧ inflight wb = delete j (delete i (inflight w))
  ∧ toasts wa ≡ₚ toasts wb
  ∧ unhandled wa ≡ₚ unhandled wb.
Proof.
  intros Hij Hi Hj Hne. cbv zeta.
  rewrite (U_deliver_lookup w i _ r1 Hi), (U_deliver_lookup w (S j) _ r2 Hj).
  change (U.resume (AwaitFetch c1)) with (U.fetch_resume c1).
  change (U.resume (AwaitFetch c2)) with (U.fetch_resume c2).
  rewrite !U_fetch_resume_set_inflight.
  assert (Ha : inflight (set_inflight (delete i (inflight w))
                           (run (U.fetch_resume c1 r1) w)) !! j
               = Some (AwaitFetch c2)).
  { cbn. by rewrite list_lookup_delete_ge. }
  assert (Hb : inflight (set_inflight (delete (S j) (inflight w))
                           (run (U.fetch_resume c2 r2) w)) !! i
               = Some (AwaitFetch c1)).
  { cbn. rewrite list_lookup_delete_lt by lia. done. }
  rewrite (U_deliver_lookup _ j _ r2 Ha), (U_deliver_lookup _ i _ r1 Hb).
  change (U.resume (AwaitFetch c1)) with (U.fetch_resume c1).
  change (U.resume (AwaitFetch c2)) with (U.fetch_resume c2).
  rewrite !U_fetch_resume_set_inflight.
  destruct (U_fetch_resume_commute c1 c2 r1 r2 w Hne)
    as (Hu & Hl & Hs & _ & _ & _ & Ht & Hx).
  split_and!; try assumption; cbn [inflight set_inflight]; try reflexivity.
  symmetry. by apply delete_delete_le.
Qed.
End Refreshes.

Section RefreshWitnesses.
Import Fixture Scenario.

Lemma refreshes_settle_in_any_order_witness :
  let w := run (U.fetchBooks;; U.fetchBooksWithQuotes) (U.fresh snapshots) in
  U.books (ui (U.deliver 0 (Fulfilled titles_payload)
                 (U.deliver 0 (Rejected offline) w)))
  = U.books (ui (U.deliver 0 (Rejected offline)
                   (U.deliver 1 (Fulfilled titles_payload) w))).
Proof.
  cbv zeta.
  set (w := run (U.fetchBooks;; U.fetchBooksWithQuotes) (U.fresh snapshots)).
  assert (H0 : inflight w !! 0 = Some (AwaitFetch Books)) by reflexivity.
  assert (H1 : inflight w !! 1 = Some (AwaitFetch BooksWithQuotes))
    by reflexivity.
  destruct (refreshes_settle_in_any_order w 0 0 Books BooksWithQuotes
              (Rejected offline) (Fulfilled titles_payload) (le_n 0) H0 H1
              ltac:(discriminate))
    as (Hu & _).
  exact (f_equal U.books Hu).
Defined.

End RefreshWitnesses.

(** ** Forms and fetches *)

Section Forms.
Context `{Platform}.

(** X5. Add Book checks the title and nothing else, in both revisions: a title
    that is empty or white space only raises "Title is required" and sends
    nothing; any other title sends [POST /books] with the form as it is, the
    title not trimmed. *)
Theorem add_book_checks_title_only (w : World U.State) (v : World F.State) :
  let w' := run U.addBook w in
  let v' := run F.addBook v in
  (if whitespace_only (bf_title (U.bookForm (ui w)))
   then sent w' = sent w ∧ inflight w' = inflight w ∧ ui w' = ui w
        ∧ toasts w' = toasts w ++ [toast_error "Title is required"]
   else sent w' = sent w ++
          [mkRequest POST (API +:+ "/books") (Some (BookBody (U.bookForm (ui w))))]
        ∧ inflight w' = inflight w ++ [AwaitMutation AddBook]
        ∧ ui w' = ui w ∧ toasts w' = toasts w)
  ∧ (if whitespace_only (bf_title (F.bookForm (ui v)))
     then sent v' = sent v ∧ inflight v' = inflight v ∧ ui v' = ui v
          ∧ toasts v' = toasts v ++ [toast_error "Title is required"]
     else sent v' = sent v ++
            [mkRequest POST (API +:+ "/books") (Some (BookBody (F.bookForm (ui v))))]
          ∧ inflight v' = inflight v ++ [AwaitMutation AddBook]
          ∧ ui v' = ui v ∧ toasts v' = toasts v).
Proof.
  cbv zeta. take_apart w. take_apart v.
  destruct bookForm as [wt ws wr], bookForm0 as [vt vs vr].
  cbn [ui U.bookForm F.bookForm bf_title].
  pose proof (falsy_trim wt) as Hw. pose proof (falsy_trim vt) as Hv.
  split.
  - destruct (whitespace_only wt); unfold_runtime; rewrite Hw;
      split_and!; reflexivity.
  - destruct (whitespace_only vt); unfold_runtime; rewrite Hv;
      split_and!; reflexivity.
Qed.

(** The edit form keeps the title the book had when the dialog was opened,
    whatever is typed into the form afterwards. *)
Lemma edits_keep_original_title (edits : list I.action) (w : World U.State) :
  Forall (λ a, I.edits_the_form a = true) edits →
  U.showEditBook (ui w) = true →
  let w' := I.session (I.User <$> edits) w in
  eb_originalTitle (U.editBookForm (ui w'))
  = eb_originalTitle (U.editBookForm (ui w))
  ∧ U.showEditBook (ui w') = true
  ∧ sent w' = sent w ∧ inflight w' = inflight w ∧ toasts w' = toasts w.
Proof.
  intros Hed. revert w. induction Hed as [|a edits Ha _ IH]; intros w Hopen.
  - done.
  - change (I.session (I.User <$> a :: edits) w)
      with (I.session (I.User <$> edits) (I.react w (I.User a))).
    assert (Hstep :
      let w1 := I.react w (I.User a) in
      eb_originalTitle (U.editBookForm (ui w1))
      = eb_originalTitle (U.editBookForm (ui w))
      ∧ U.showEditBook (ui w1) = true
      ∧ sent w1 = sent w ∧ inflight w1 = inflight w ∧ toasts w1 = toasts w).
    { cbv zeta. clear IH. take_apart w. cbn in Hopen. subst.
      destruct editBookForm.
      destruct a; try discriminate Ha; cbn [I.react I.available ui U.showEditBook];
        unfold I.perform; unfold_runtime; split_and!; reflexivity. }
    cbv zeta in Hstep. destruct Hstep as (H1 & H2 & H3 & H4 & H5).
    destruct (IH _ H2) as (J1 & J2 & J3 & J4 & J5).
    cbv zeta. split_and!; congruence.
Qed.

(** X6. Opening the edit dialog on a book, changing the form in any way and
    submitting it: the request goes to the URL of the title the book had when
    the dialog was opened, and carries the title, status and rating of the
    form; a form whose title is blank sends nothing. *)
Theorem edit_targets_the_title_it_was_opened_on
    (w : World U.State) (title status : string) (rating : number)
    (edits : list I.action) :
  Forall (λ a, I.edits_the_form a = true) edits →
  let opened := run (U.handleEditBook title status rating) w in
  let edited := I.session (I.User <$> edits) opened in
  let form := U.editBookForm (ui edited) in
  let submitted := run U.submitEditBook edited in
  (edits = [] → form = mkEditBookForm title status rating title)
  ∧ if whitespace_only (eb_title form)
    then sent submitted = sent w
         ∧ toasts submitted = toasts w ++ [toast_error "Title is required"]
    else sent submitted = sent w ++
           [mkRequest PUT (API +:+ "/books/" +:+ encodeURIComponent title)
              (Some (UpdatesBody
                       (mkBookUpdates (Some (eb_title form))
                          (Some (eb_status form)) (Some (eb_rating form)))))]
         ∧ toasts submitted = toasts w.
Proof.
  intros Hed. cbv zeta.
  set (opened := run (U.handleEditBook title status rating) w).
  assert (Hopen : U.showEditBook (ui opened) = true)
    by (subst opened; take_apart w; reflexivity).
  assert (Horig : eb_originalTitle (U.editBookForm (ui opened)) = title)
    by (subst opened; take_apart w; reflexivity).
  assert (Hsent : sent opened = sent w ∧ toasts opened = toasts w)
    by (subst opened; take_apart w; split; reflexivity).
  destruct (edits_keep_original_title edits opened Hed Hopen)
    as (Ho & _ & Hs & _ & Ht).
  cbv zeta in Ho, Hs, Ht. rewrite Horig in Ho.
  destruct Hsent as [Hs0 Ht0]. rewrite Hs0 in Hs. rewrite Ht0 in Ht.
  split.
  - intros ->. clear. subst opened. take_apart w. reflexivity.
  - clear Horig Hopen Hs0 Ht0. generalize dependent (I.session (I.User <$> edits) opened).
    intros edited Ho Hs Ht. take_apart edited.
    destruct editBookForm as [et es er eo].
    cbn in Ho, Hs, Ht. subst.
    cbn [ui U.editBookForm eb_title eb_status eb_rating].
    pose proof (falsy_trim et) as He.
    destruct (whitespace_only et); unfold_runtime; rewrite He;
      split; reflexivity.
Qed.

(** X7. After an Add Quote whose request succeeded the form is cleared and the
    dialog closed, in both revisions, and the selected book stays selected.
    In [part_000] the author of the form goes back to user 1 whatever had
    been picked; in [App.js] the author is the toggle [currentUser], which
    the mutation leaves alone. *)
Theorem added_quote_resets_the_form
    (w : World U.State) (v : World F.State) (i j : nat) (d : json) :
  inflight w !! i = Some (AwaitMutation AddQuote) →
  inflight v !! j = Some (AwaitMutation AddQuote) →
  let w' := U.deliver i (Fulfilled d) w in
  let v' := F.deliver j (Fulfilled d) v in
  (U.quoteForm (ui w') = U.mkQuoteForm "" "" 1
   ∧ U.showAddQuote (ui w') = false
   ∧ U.selectedBook (ui w') = U.selectedBook (ui w)
   ∧ toasts w' = toasts w ++ [toast_success "Quote added successfully"])
  ∧ (F.quoteForm (ui v') = F.mkQuoteForm "" ""
     ∧ F.showAddQuote (ui v') = false
     ∧ F.selectedBook (ui v') = F.selectedBook (ui v)
     ∧ F.currentUser (ui v') = F.currentUser (ui v)
     ∧ toasts v' = toasts v ++ [toast_success "Quote added successfully"]).
Proof.
  intros Hw Hv. cbv zeta.
  rewrite (U_deliver_lookup _ _ _ _ Hw), (F_deliver_lookup _ _ _ _ Hv).
  clear Hw Hv. take_apart w. take_apart v.
  unfold_runtime. split_and!; reflexivity.
Qed.

End Forms.

Section FormWitnesses.
Import Fixture Scenario.

Lemma edit_targets_the_title_it_was_opened_on_witness :
  sent (run U.submitEditBook
          (I.session [I.User (I.EditTitle_onChange "Dune Messiah")]
             (run (U.handleEditBook "Dune" "Reading" 8%Z) (U.fresh ∅))))
  = [mkRequest PUT "http://localhost:8001/api/books/Dune"
       (Some (UpdatesBody (mkBookUpdates (Some "Dune Messiah") (Some "Reading")
                             (Some 8%Z))))].
Proof.
  assert (Hed : Forall (λ a, I.edits_the_form a = true)
                  [I.EditTitle_onChange "Dune Messiah"])
    by (repeat constructor).
  destruct (edit_targets_the_title_it_was_opened_on (H := platform)
              (U.fresh ∅) "Dune" "Reading" 8%Z
              [I.EditTitle_onChange "Dune Messiah"] Hed)
    as [_ Hsub].
  exact (proj1 Hsub).
Defined.

Lemma added_quote_resets_the_form_witness :
  U.quoteForm (ui (U.deliver 0 (Fulfilled VNull) (run U.addQuote quoting)))
  = U.mkQuoteForm "" "" 1.
Proof.
  destruct (added_quote_resets_the_form (run U.addQuote quoting)
              (run F.addQuote F_quoting) 0 0 VNull eq_refl eq_refl)
    as [(Hq & _) _].
  exact Hq.
Defined.

End FormWitnesses.

Section FetchMore.
Context `{Platform}.

(** X8. In [part_000] a per-collection fetch that succeeds replaces its
    collection by the response as a whole and stores the serialised response
    under the key of the collection, over any older snapshot; the other
    collections and the other cache entries are untouched, nothing is sent
    and nothing is notified. *)
Theorem successful_fetch_replaces_and_caches
    (w : World U.State) (i : nat) (c : collection) (d : json) :
  inflight w !! i = Some (AwaitFetch c) →
  let w' := U.deliver i (Fulfilled d) w in
  U.cell c (ui w') = d
  ∧ localStorage w' = <[U.cache_key c := JSON_stringify d]> (localStorage w)
  ∧ (∀ c', c' ≠ c → U.cell c' (ui w') = U.cell c' (ui w))
  ∧ (∀ c', c' ≠ c →
       localStorage w' !! U.cache_key c' = localStorage w !! U.cache_key c')
  ∧ sent w' = sent w
  ∧ inflight w' = delete i (inflight w)
  ∧ toasts w' = toasts w
  ∧ unhandled w' = unhandled w.
Proof.
  intros Hw. cbv zeta. rewrite (U_deliver_lookup _ _ _ _ Hw).
  change (U.resume (AwaitFetch c)) with (U.fetch_resume c).
  set (w0 := set_inflight (delete i (inflight w)) w).
  destruct (U_fetch_success c d w0) as (Hc & Hl & Ht & Hu).
  destruct (U_fetch_frame c (Fulfilled d) w0) as (Hs & Hi & Hcells & Hkeys).
  split_and!; assumption.
Qed.

(** X10. In [App.js] a settled fetch of the books-with-quotes changes nothing the
    component shows or stores: there is no such cell, so a response that
    arrives is logged as a [ReferenceError], and a failure is logged; no
    notification is raised either way. *)
Theorem frontend_books_with_quotes_fetch_is_inert
    (v : World F.State) (j : nat) (r : response) :
  inflight v !! j = Some (AwaitFetch BooksWithQuotes) →
  let v' := F.deliver j r v in
  ui v' = ui v ∧ renders v' = renders v ∧ localStorage v' = localStorage v
  ∧ toasts v' = toasts v ∧ sent v' = sent v ∧ unhandled v' = unhandled v
  ∧ console v' = console v ++
      [match r with
       | Fulfilled _ => ReferenceError "setBooksWithQuotes"
       | Rejected e => e
       end].
Proof.
  intros Hv. cbv zeta. rewrite (F_deliver_lookup _ _ _ _ Hv). clear Hv.
  take_apart v. destruct r; unfold_runtime; split_and!; reflexivity.
Qed.

End FetchMore.

Section FetchMoreWitnesses.
Import Fixture Scenario.

Lemma successful_fetch_replaces_and_caches_witness :
  localStorage (U.deliver 0 (Fulfilled quotes_payload) (refetching Quotes ∅))
    !! "quotes"
  = Some (JSON_stringify quotes_payload).
Proof.
  destruct (successful_fetch_replaces_and_caches (refetching Quotes ∅) 0
              Quotes quotes_payload eq_refl) as (_ & Hl & _).
  rewrite Hl. apply lookup_insert_eq.
Defined.

Lemma U_fetch_cache_round_trip_witness :
  U.quotes (ui (run (U.fetch_resume Quotes (Rejected offline))
                  (run (U.fetch_resume Quotes (Fulfilled quotes_payload))
                     (U.fresh ∅))))
  = quotes_payload.
Proof.
  exact (U_fetch_cache_round_trip Quotes quotes_payload offline (U.fresh ∅)
           eq_refl eq_refl _ eq_refl).
Defined.

Lemma frontend_books_with_quotes_fetch_is_inert_witness :
  console (F.deliver 0 (Fulfilled titles_payload)
             (run F.fetchBooksWithQuotes (F.fresh ∅)))
  = [ReferenceError "setBooksWithQuotes"].
Proof.
  destruct (frontend_books_with_quotes_fetch_is_inert
              (run F.fetchBooksWithQuotes (F.fresh ∅)) 0
              (Fulfilled titles_payload) eq_refl) as (_ & _ & _ & _ & _ & _ & Hc).
  exact Hc.
Defined.

End FetchMoreWitnesses.

(** ** The quote cards *)

Section Cards.

Lemma filter_listed_cons (t : R.field) (rest : list R.field)
    (quotes : list R.Quote) :
  t ∉ rest →
  R.getQuotesForBook quotes t ++ filter (λ q, R.book_title q ∈ rest) quotes
  ≡ₚ filter (λ q, R.book_title q ∈ t :: rest) quotes.
Proof.
  intros Hnot. unfold R.getQuotesForBook.
  induction quotes as [|q quotes IH]; [done|].
  rewrite !filter_cons.
  destruct (decide (R.book_title q = t)) as [Heq|Hne].
  - rewrite decide_False by (rewrite Heq; exact Hnot).
    rewrite decide_True by (rewrite Heq; left).
    cbn. by rewrite IH.
  - destruct (decide (R.book_title q ∈ rest)) as [Hin|Hout].
    + rewrite decide_True by (by right).
      rewrite <- Permutation_middle. by rewrite IH.
    + rewrite decide_False; [exact IH|].
      intros [?|?]%elem_of_cons; contradiction.
Qed.

(** X12. The quotes tab lists one card for each entry of the books-with-quotes,
    with the quotes of the quotes collection that carry the title of the
    card, in their order, and their number.  When no title is listed twice,
    a quote whose title is listed is shown exactly once and a quote whose
    title is not listed is not shown at all, whether or not its book is in
    the books collection. *)
Theorem quote_cards_show_listed_quotes_once
    (booksWithQuotes : list R.field) (quotes : list R.Quote) :
  NoDup booksWithQuotes →
  let cards := R.quotes_grid booksWithQuotes quotes in
  R.card_title <$> cards = booksWithQuotes
  ∧ Forall (λ c, R.card_count c = length (R.card_quotes c)
                 ∧ R.card_quotes c `sublist_of` quotes
                 ∧ Forall (λ q, R.book_title q = R.card_title c)
                     (R.card_quotes c)) cards
  ∧ R.shown cards ≡ₚ filter (λ q, R.book_title q ∈ booksWithQuotes) quotes
  ∧ ((∀ q, q ∈ quotes → R.book_title q ∈ booksWithQuotes) →
     R.shown cards ≡ₚ quotes).
Proof.
  intros Hnd. cbv zeta.
  assert (Hshown : R.shown (R.quotes_grid booksWithQuotes quotes)
                   ≡ₚ filter (λ q, R.book_title q ∈ booksWithQuotes) quotes).
  { induction Hnd as [|t rest Hnot Hnd IH].
    - cbn. induction quotes as [|q quotes IHq]; [done|].
      rewrite filter_cons, decide_False by (apply not_elem_of_nil). exact IHq.
    - change (R.shown (R.quotes_grid (t :: rest) quotes))
        with (R.getQuotesForBook quotes t ++ R.shown (R.quotes_grid rest quotes)).
      rewrite IH. by apply filter_listed_cons. }
  split_and!.
  - unfold R.quotes_grid. rewrite <- list_fmap_compose.
    clear. induction booksWithQuotes; cbn; by f_equal.
  - unfold R.quotes_grid. apply Forall_fmap, Forall_forall. intros t _. cbn.
    split_and!; [done | apply sublist_filter |].
    apply Forall_forall. by intros q [? _]%list_elem_of_filter.
  - exact Hshown.
  - intros Hall. rewrite Hshown.
    clear Hshown. induction quotes as [|q quotes IH]; [done|].
    rewrite filter_cons, decide_True by (apply Hall; left).
    f_equiv. apply IH. intros q' Hq'. apply Hall. by right.
Qed.

End Cards.

Section CardWitnesses.

Lemma quote_cards_show_listed_quotes_once_witness :
  let q1 := R.mkQuote (R.Text "Dune") "Fear is the mind-killer" 1 "" in
  let q2 := R.mkQuote (R.Text "Emma") "Seldom, very seldom" 2 "why" in
  let q3 := R.mkQuote R.Null "Orphan of a request without a book" 1 "" in
  R.shown (R.quotes_grid [R.Text "Emma"; R.Text "Dune"] [q1; q2; q3])
  ≡ₚ [q1; q2].
Proof.
  cbv zeta.
  assert (Hnd : NoDup [R.Text "Emma"; R.Text "Dune"])
    by (apply NoDup_ListNoDup; repeat constructor; cbn; intuition discriminate).
  destruct (quote_cards_show_listed_quotes_once [R.Text "Emma"; R.Text "Dune"]
              [R.mkQuote (R.Text "Dune") "Fear is the mind-killer" 1 "";
               R.mkQuote (R.Text "Emma") "Seldom, very seldom" 2 "why";
               R.mkQuote R.Null "Orphan of a request without a book" 1 ""]
              Hnd) as (_ & _ & Hs & _).
  exact Hs.
Defined.

End CardWitnesses.

(** ** The rating hexagons *)

Section Hexagons.

Lemma Qfloor_bounds (x : Q) :
  Qle (inject_Z (Qfloor x)) x ∧ Qlt x (Qplus (inject_Z (Qfloor x)) (inject_Z 1)).
Proof.
  split; [apply Qfloor_le|].
  rewrite <- inject_Z_plus. apply Qlt_floor.
Qed.

Lemma Z_lt_succ_of_Q (a b : Z) :
  Qlt (inject_Z a) (Qplus (inject_Z b) (inject_Z 1)) → (a ≤ b)%Z.
Proof.
  rewrite <- inject_Z_plus, <- Zlt_Qlt. lia.
Qed.

Lemma Qfloor_unique (x : Q) (z : Z) :
  Qle (inject_Z z) x → Qlt x (Qplus (inject_Z z) (inject_Z 1)) → Qfloor x = z.
Proof.
  intros Hlo Hhi. destruct (Qfloor_bounds x) as [Flo Fhi].
  assert ((z ≤ Qfloor x)%Z) by (apply Z_lt_succ_of_Q; qlra).
  assert ((Qfloor x ≤ z)%Z) by (apply Z_lt_succ_of_Q; qlra).
  lia.
Qed.

Lemma Qceiling_unique (x : Q) (z : Z) :
  Qlt (Qminus (inject_Z z) (inject_Z 1)) x → Qle x (inject_Z z) →
  Qceiling x = z.
Proof.
  intros Hlo Hhi. unfold Qceiling.
  rewrite (Qfloor_unique (Qopp x) (- z)%Z); [lia | |];
    rewrite inject_Z_opp; qlra.
Qed.

(** [x % 1 !== 0] holds exactly when [x] is not an integer. *)
Lemma mod_1_zero (x : Q) :
  Qeq_bool (R.mod_1 x) (inject_Z 0) = Qeq_bool x (inject_Z (Qfloor x)).
Proof.
  destruct (Qfloor_bounds x) as [Flo Fhi].
  unfold R.mod_1. destruct (Qle_bool (inject_Z 0) x) eqn:Hs.
  - apply eq_true_iff_eq. rewrite !Qeq_bool_iff. split; intros; qlra.
  - assert (Hneg : Qlt x (inject_Z 0)).
    { apply Qnot_le_lt. intros Hle. apply Qle_bool_iff in Hle. congruence. }
    apply eq_true_iff_eq. rewrite !Qeq_bool_iff. split; intros Hz.
    + assert (Hc : Qeq x (inject_Z (Qceiling x))) by qlra.
      rewrite Hc at 2. rewrite Qfloor_Z. exact Hc.
    + rewrite Hz at 2. rewrite Qceiling_Z. qlra.
Qed.


Lemma Array_from_length_small (n : Z) :
  (0 ≤ n < 2 ^ 32)%Z → R.Array_from_length n = Some (Z.to_nat n).
Proof.
  intros [Hlo Hhi]. unfold R.Array_from_length.
  destruct (Z.ltb_spec n 0); [lia|]. destruct (Z.ltb_spec n (2 ^ 32)); [done|lia].
Qed.

(** X13. [part_000] draws a rating between 1 and 10 as between 1 and 10 icons: as
    many filled ones as the integer part of the rating, followed by one
    outlined icon exactly when the rating is not an integer; that is the
    rating rounded up, in icons. *)
Theorem hexagons_of_a_rating_on_the_scale (rating : Q) :
  Qle (inject_Z 1) rating → Qle rating (inject_Z 10) →
  let full := Z.to_nat (Qfloor rating) in
  let icons := replicate full R.Filled
               ++ (if Qeq_bool rating (inject_Z (Qfloor rating)) then []
                   else [R.Outline]) in
  R.renderHexagons rating = Some icons
  ∧ (1 ≤ full ≤ 10)%nat
  ∧ length icons = Z.to_nat (Qceiling rating)
  ∧ (1 ≤ length icons ≤ 10)%nat.
Proof.
  intros Hlo Hhi. cbv zeta.
  destruct (Qfloor_bounds rating) as [Flo Fhi].
  assert (H1 : (1 ≤ Qfloor rating)%Z).
  { rewrite <- (Qfloor_Z 1). by apply Qfloor_resp_le. }
  assert (H10 : (Qfloor rating ≤ 10)%Z).
  { rewrite <- (Qfloor_Z 10). by apply Qfloor_resp_le. }
  assert (Hrender : R.renderHexagons rating
    = Some (replicate (Z.to_nat (Qfloor rating)) R.Filled
            ++ (if Qeq_bool rating (inject_Z (Qfloor rating)) then []
                else [R.Outline]))).
  { unfold R.renderHexagons. rewrite mod_1_zero.
    rewrite Array_from_length_small by lia. cbn.
    by destruct (Qeq_bool rating (inject_Z (Qfloor rating))). }
  assert (Hceil : length (replicate (Z.to_nat (Qfloor rating)) R.Filled
                    ++ (if Qeq_bool rating (inject_Z (Qfloor rating)) then []
                        else [R.Outline]))
                  = Z.to_nat (Qceiling rating)).
  { rewrite length_app, length_replicate.
    destruct (Qeq_bool rating (inject_Z (Qfloor rating))) eqn:Hw.
    - apply Qeq_bool_iff in Hw. cbn.
      rewrite (Qceiling_unique rating (Qfloor rating)); [lia | qlra | qlra].
    - apply Qeq_bool_neq in Hw. cbn.
      rewrite (Qceiling_unique rating (Qfloor rating + 1));
        [lia | rewrite inject_Z_plus; qlra | rewrite inject_Z_plus; qlra]. }
  split_and!; [exact Hrender | lia | lia | exact Hceil | |].
  - rewrite Hceil. pose proof (Qle_ceiling rating).
    assert ((1 ≤ Qceiling rating)%Z); [|lia].
    rewrite Zle_Qle. qlra.
  - rewrite Hceil.
    assert ((Qceiling rating ≤ 10)%Z); [|lia].
    rewrite <- (Qceiling_Z 10). by apply Qceiling_resp_le.
Qed.

(** X14. [App.js] draws a rating between 1 and 10 as [Math.round(rating)] filled
    icons, between 1 and 10 of them: the integer part of the rating, plus
    one exactly when the fractional part is a half or more.  So it never
    draws fewer filled icons than [part_000] draws, and never more icons
    than [part_000] draws in all. *)
Theorem frontend_hexagons_of_a_rating_on_the_scale (rating : Q) :
  Qle (inject_Z 1) rating → Qle rating (inject_Z 10) →
  let count := Z.to_nat (R.Math_round rating) in
  let half := Qle_bool (Qplus (inject_Z (Qfloor rating)) (Qmake 1 2)) rating in
  R.F_renderHexagons rating = Some (replicate count R.Filled)
  ∧ (1 ≤ count ≤ 10)%nat
  ∧ count = (Z.to_nat (Qfloor rating) + (if half then 1 else 0))%nat
  ∧ (Z.to_nat (Qfloor rating) ≤ count ≤ Z.to_nat (Qceiling rating))%nat.
Proof.
  intros Hlo Hhi. cbv zeta.
  destruct (Qfloor_bounds rating) as [Flo Fhi].
  assert (H1 : (1 ≤ Qfloor rating)%Z).
  { rewrite <- (Qfloor_Z 1). by apply Qfloor_resp_le. }
  assert (H10 : (Qfloor rating ≤ 10)%Z).
  { rewrite <- (Qfloor_Z 10). by apply Qfloor_resp_le. }
  assert (Hround : R.Math_round rating
    = (Qfloor rating
       + if Qle_bool (Qplus (inject_Z (Qfloor rating)) (Qmake 1 2)) rating
         then 1 else 0)%Z).
  { unfold R.Math_round.
    destruct (Qle_bool (Qplus (inject_Z (Qfloor rating)) (Qmake 1 2)) rating)
      eqn:Hh.
    - apply Qle_bool_iff in Hh. apply Qfloor_unique;
        rewrite inject_Z_plus; qlra.
    - assert (Hlt : Qlt rating (Qplus (inject_Z (Qfloor rating)) (Qmake 1 2))).
      { apply Qnot_le_lt. intros Hle. apply Qle_bool_iff in Hle. congruence. }
      rewrite Z.add_0_r. apply Qfloor_unique; qlra. }
  assert (Hten : (R.Math_round rating ≤ 10)%Z).
  { rewrite Hround.
    destruct (Qle_bool (Qplus (inject_Z (Qfloor rating)) (Qmake 1 2)) rating)
      eqn:Hh; [|lia].
    apply Qle_bool_iff in Hh.
    assert ((Qfloor rating < 10)%Z); [|lia].
    rewrite Zlt_Qlt. qlra. }
  assert (Hceil : (R.Math_round rating ≤ Qceiling rating)%Z).
  { rewrite Hround. pose proof (Qle_ceiling rating) as Hc.
    destruct (Qle_bool (Qplus (inject_Z (Qfloor rating)) (Qmake 1 2)) rating)
      eqn:Hh.
    - apply Qle_bool_iff in Hh.
      assert ((Qfloor rating < Qceiling rating)%Z); [|lia].
      rewrite Zlt_Qlt. qlra.
    - assert ((Qfloor rating ≤ Qceiling rating)%Z); [|lia].
      rewrite Zle_Qle. qlra. }
  split_and!.
  - unfold R.F_renderHexagons.
    rewrite Array_from_length_small; [done|].
    rewrite Hround. destruct (Qle_bool _ _); lia.
  - rewrite Hround. destruct (Qle_bool _ _); lia.
  - lia.
  - rewrite Hround. destruct (Qle_bool _ _); lia.
  - rewrite Hround. destruct (Qle_bool _ _); lia.
  - lia.
Qed.

(** X15. Off the scale: a negative rating draws no filled icon in either revision
    ([part_000] still draws the outlined one when the rating is not an
    integer), and a rating of [2^32] or more makes both revisions throw a
    [RangeError] instead of rendering the row. *)
Theorem hexagons_off_the_scale (rating : Q) :
  (Qlt rating (inject_Z 0) →
   R.renderHexagons rating
   = Some (if Qeq_bool rating (inject_Z (Qfloor rating)) then []
           else [R.Outline])
   ∧ R.F_renderHexagons rating = Some [])
  ∧ (Qle (inject_Z (2 ^ 32)) rating →
     R.renderHexagons rating = None ∧ R.F_renderHexagons rating = None).
Proof.
  destruct (Qfloor_bounds rating) as [Flo Fhi]. split.
  - intros Hneg.
    assert (Hf : (Qfloor rating < 0)%Z) by (rewrite Zlt_Qlt; qlra).
    assert (Hr : (R.Math_round rating ≤ 0)%Z).
    { unfold R.Math_round.
      destruct (Qfloor_bounds (Qplus rating (Qmake 1 2))) as [Rlo _].
      assert ((Qfloor (Qplus rating (Qmake 1 2)) < 1)%Z); [|lia].
      rewrite Zlt_Qlt. qlra. }
    split.
    + unfold R.renderHexagons. rewrite mod_1_zero. unfold R.Array_from_length.
      destruct (Z.ltb_spec (Qfloor rating) 0); [|lia]. cbn.
      by destruct (Qeq_bool rating (inject_Z (Qfloor rating))).
    + unfold R.F_renderHexagons, R.Array_from_length.
      destruct (Z.ltb_spec (R.Math_round rating) 0); [done|].
      destruct (Z.ltb_spec (R.Math_round rating) (2 ^ 32)); [|lia].
      assert (R.Math_round rating = 0%Z) as -> by lia. reflexivity.
  - intros Hbig.
    assert (Hf : (2 ^ 32 ≤ Qfloor rating)%Z).
    { rewrite <- (Qfloor_Z (2 ^ 32)). by apply Qfloor_resp_le. }
    assert (Hr : (2 ^ 32 ≤ R.Math_round rating)%Z).
    { unfold R.Math_round. rewrite <- (Qfloor_Z (2 ^ 32)).
      apply Qfloor_resp_le. qlra. }
    split.
    + unfold R.renderHexagons, R.Array_from_length.
      destruct (Z.ltb_spec (Qfloor rating) 0); [lia|].
      destruct (Z.ltb_spec (Qfloor rating) (2 ^ 32)); [lia|done].
    + unfold R.F_renderHexagons, R.Array_from_length.
      destruct (Z.ltb_spec (R.Math_round rating) 0); [lia|].
      destruct (Z.ltb_spec (R.Math_round rating) (2 ^ 32)); [lia|done].
Qed.

End Hexagons.

Section HexagonWitnesses.

Lemma hexagons_of_a_rating_on_the_scale_witness :
  R.renderHexagons (Qmake 17 2)
  = Some [R.Filled; R.Filled; R.Filled; R.Filled; R.Filled; R.Filled;
          R.Filled; R.Filled; R.Outline].
Proof.
  refine (proj1 (hexagons_of_a_rating_on_the_scale (Qmake 17 2) _ _));
    unfold Qle; cbn; lia.
Defined.

Lemma frontend_hexagons_of_a_rating_on_the_scale_witness :
  R.F_renderHexagons (Qmake 17 2)
  = Some [R.Filled; R.Filled; R.Filled; R.Filled; R.Filled; R.Filled;
          R.Filled; R.Filled; R.Filled].
Proof.
  refine (proj1 (frontend_hexagons_of_a_rating_on_the_scale (Qmake 17 2) _ _));
    unfold Qle; cbn; lia.
Defined.

Lemma hexagons_off_the_scale_witness :
  R.renderHexagons (Qmake (-1) 2) = Some [R.Outline]
  ∧ R.F_renderHexagons (Qmake (-1) 2) = Some [].
Proof.
  refine (proj1 (hexagons_off_the_scale (Qmake (-1) 2)) _).
  unfold Qlt; cbn; lia.
Defined.

End HexagonWitnesses.

(** ** Request paths *)

Section Urls.
Context `{Platform}.



End Urls.

(** *** The percent-encoding of the concrete platform *)

Section PercentEncoding.
Import Fixture.





End PercentEncoding.

Section UrlWitnesses.
Import Fixture Scenario.


End UrlWitnesses.
